(** * gakuon-editor: the application controller ([src/app/index.ts])

    A shallow embedding of the [App] class, of the menu handlers of its
    [Private] namespace and of [Util.bench], followed by the properties of
    the controller that are checked against it.

    The controller is glue code: it talks to a compiler, an assembler, a SID
    player, a file saver, the console, the clock and a widget toolkit.  Every
    one of these collaborators is represented by what the controller can
    observe of it: a function for the values it returns (or throws), and a
    log, kept in the [World], of the calls the controller makes to it. *)

From Stdlib Require Import ZArith List String Ascii Bool Lia Permutation.
From Stdlib Require Import DecimalString.
Import ListNotations.

Local Open Scope string_scope.
Local Open Scope list_scope.

(** ** JavaScript completions *)

Module Js.

(** A thrown value.  As for an [Error] object, what a handler can tell it
    apart by is its [name]; the [message] is free text. *)
Record Error : Type := mkError {
  err_name : string;
  err_message : string
}.

(** The error the runtime raises when a property of [null] is read or
    called, as in [null.close()] (the wording of the message is the
    engine's). *)
Definition TypeError_null (property : string) : Error :=
  {| err_name := "TypeError";
     err_message := "Cannot read property '" ++ property ++ "' of null" |}.

(** How the evaluation of a call ends: with a value, or abruptly. *)
Inductive Completion (A : Type) : Type :=
| Normal (value : A)
| Throw (e : Error).

Arguments Normal {A} value.
Arguments Throw {A} e.

(** [Uint8Array.from(xs)]: every element is stored modulo 2^8. *)
Definition Uint8Array_from (xs : list Z) : list Z :=
  map (fun x => x mod 256)%Z xs.

(** [`${n}`] for an integral number [n] (below 10^21 in absolute value,
    where JavaScript prints every digit). *)
Definition to_string (n : Z) : string :=
  NilZero.string_of_int (Z.to_int n).

End Js.

Import Js.

(** ** The data the controller handles *)

(** [new Compiler()] passes no options, [new Compiler({ player: true })]
    passes some. *)
Record CompilerOptions : Type := { player : bool }.

Definition CompilerConfig : Type := option CompilerOptions.

(** The flag the compiler sees: an absent option is not set. *)
Definition player_flag (cfg : CompilerConfig) : bool :=
  match cfg with
  | Some o => player o
  | None => false
  end.

(** The object [Assembler.assemble] returns; the controller destructures
    its [objectCode]. *)
Record AssemblerOutput : Type := { objectCode : list Z }.

(** A [DocumentPanel]: an identity (the object reference) and the
    [editor.content] text. *)
Record DocumentPanel : Type := {
  doc_id : nat;
  editor_content : string
}.

(** A toolkit [Widget] as [createPlaceholder] configures it. *)
Record Widget : Type := {
  classes : list string;
  title_text : string;
  title_closable : bool
}.

(** A [MenuItem] of type [Check] as the view handlers receive it. *)
Record MenuItem : Type := {
  item_text : string;
  item_checked : bool
}.

(** The calls the controller makes on its [jsSID] player. *)
Inductive PlayerCall : Type :=
| Loadinitdata (data : list Z) (subtune : Z)
| Playcont
| Stop.

(** The single part of a [Blob]: a string or a [Uint8Array]. *)
Inductive BlobPart : Type :=
| Text (s : string)
| Bytes (b : list Z).

Record Blob : Type := {
  blob_part : BlobPart;
  blob_type : string
}.

(** The state of the application and the log of its effects. *)
Record World : Type := mkWorld {
  children : list DocumentPanel;   (* documentPanel's children, in tab order *)
  currentWidget : option nat;      (* documentPanel.currentWidget, as a position *)
  sidePanel : list Widget;         (* widgets docked in the side panel, left to right *)
  nextId : nat;                    (* identity given to the next document *)
  closed : list DocumentPanel;     (* documents whose close() was called *)
  compilerCalls : list (CompilerConfig * string);
  assemblerCalls : list string;
  playerCalls : list PlayerCall;
  saved : list (Blob * string);    (* saveAs(blob, name) *)
  console : list string;           (* console.log lines *)
  clock : nat                      (* Date.now() readings taken so far *)
}.

(** The application right after [new App()]. *)
Definition fresh : World :=
  {| children := []; currentWidget := None; sidePanel := []; nextId := 0;
     closed := []; compilerCalls := []; assemblerCalls := [];
     playerCalls := []; saved := []; console := []; clock := 0 |}.

(** ** Computations: state passing with abrupt completion

    A thrown error keeps the effects performed before it. *)

Definition M (A : Type) : Type := World -> Completion A * World.

Definition ret {A} (a : A) : M A := fun w => (Normal a, w).

Definition throw {A} (e : Error) : M A := fun w => (Throw e, w).

Definition bind {A B} (m : M A) (k : A -> M B) : M B :=
  fun w =>
    match m w with
    | (Normal a, w') => k a w'
    | (Throw e, w') => (Throw e, w')
    end.

Declare Scope js_scope.
Delimit Scope js_scope with js.
Notation "x <- m ;; k" := (bind m (fun x => k))
  (at level 61, m at next level, right associativity) : js_scope.
Notation "' p <- m ;; k" := (bind m (fun x => match x with p => k end))
  (at level 61, p pattern, m at next level, right associativity) : js_scope.
Notation "m ;; k" := (bind m (fun _ => k))
  (at level 61, right associativity) : js_scope.
Local Open Scope js_scope.

(** Effects on the world. *)

Definition modify (f : World -> World) : M unit := fun w => (Normal tt, f w).

Definition gets {A} (f : World -> A) : M A := fun w => (Normal (f w), w).

Definition set_session (cs : list DocumentPanel) (cur : option nat) (w : World) : World :=
  {| children := cs; currentWidget := cur; sidePanel := sidePanel w;
     nextId := nextId w; closed := closed w;
     compilerCalls := compilerCalls w; assemblerCalls := assemblerCalls w;
     playerCalls := playerCalls w; saved := saved w; console := console w;
     clock := clock w |}.

Definition set_nextId (n : nat) (w : World) : World :=
  {| children := children w; currentWidget := currentWidget w;
     sidePanel := sidePanel w; nextId := n; closed := closed w;
     compilerCalls := compilerCalls w; assemblerCalls := assemblerCalls w;
     playerCalls := playerCalls w; saved := saved w; console := console w;
     clock := clock w |}.

Definition log_closed (d : DocumentPanel) (w : World) : World :=
  {| children := children w; currentWidget := currentWidget w;
     sidePanel := sidePanel w; nextId := nextId w; closed := closed w ++ [d];
     compilerCalls := compilerCalls w; assemblerCalls := assemblerCalls w;
     playerCalls := playerCalls w; saved := saved w; console := console w;
     clock := clock w |}.

Definition dock_right (x : Widget) (w : World) : World :=
  {| children := children w; currentWidget := currentWidget w;
     sidePanel := sidePanel w ++ [x]; nextId := nextId w; closed := closed w;
     compilerCalls := compilerCalls w; assemblerCalls := assemblerCalls w;
     playerCalls := playerCalls w; saved := saved w; console := console w;
     clock := clock w |}.

Definition log_compile (cfg : CompilerConfig) (src : string) (w : World) : World :=
  {| children := children w; currentWidget := currentWidget w;
     sidePanel := sidePanel w; nextId := nextId w; closed := closed w;
     compilerCalls := compilerCalls w ++ [(cfg, src)];
     assemblerCalls := assemblerCalls w;
     playerCalls := playerCalls w; saved := saved w; console := console w;
     clock := clock w |}.

Definition log_assemble (asm : string) (w : World) : World :=
  {| children := children w; currentWidget := currentWidget w;
     sidePanel := sidePanel w; nextId := nextId w; closed := closed w;
     compilerCalls := compilerCalls w;
     assemblerCalls := assemblerCalls w ++ [asm];
     playerCalls := playerCalls w; saved := saved w; console := console w;
     clock := clock w |}.

Definition log_player (c : PlayerCall) (w : World) : World :=
  {| children := children w; currentWidget := currentWidget w;
     sidePanel := sidePanel w; nextId := nextId w; closed := closed w;
     compilerCalls := compilerCalls w; assemblerCalls := assemblerCalls w;
     playerCalls := playerCalls w ++ [c]; saved := saved w;
     console := console w; clock := clock w |}.

Definition log_saved (b : Blob) (name : string) (w : World) : World :=
  {| children := children w; currentWidget := currentWidget w;
     sidePanel := sidePanel w; nextId := nextId w; closed := closed w;
     compilerCalls := compilerCalls w; assemblerCalls := assemblerCalls w;
     playerCalls := playerCalls w; saved := saved w ++ [(b, name)];
     console := console w; clock := clock w |}.

Definition log_console (line : string) (w : World) : World :=
  {| children := children w; currentWidget := currentWidget w;
     sidePanel := sidePanel w; nextId := nextId w; closed := closed w;
     compilerCalls := compilerCalls w; assemblerCalls := assemblerCalls w;
     playerCalls := playerCalls w; saved := saved w;
     console := console w ++ [line]; clock := clock w |}.

Definition tick (w : World) : World :=
  {| children := children w; currentWidget := currentWidget w;
     sidePanel := sidePanel w; nextId := nextId w; closed := closed w;
     compilerCalls := compilerCalls w; assemblerCalls := assemblerCalls w;
     playerCalls := playerCalls w; saved := saved w; console := console w;
     clock := S (clock w) |}.

(** [console.log(line)] and [saveAs(blob, name)]. *)
Definition console_log (line : string) : M unit := modify (log_console line).

Definition saveAs (b : Blob) (name : string) : M unit := modify (log_saved b name).

(** The position [i] taken out of a list. *)
Fixpoint remove_nth {A} (i : nat) (l : list A) : list A :=
  match l, i with
  | [], _ => []
  | _ :: t, O => t
  | x :: t, S j => x :: remove_nth j t
  end.

(** ** Sample collaborators

    A compiler that rejects the empty score, an assembler whose object code
    needs the reduction to bytes, a clock and a tab selection policy, to run
    the controller on. *)

Module Sample.

Definition syntax_error : Error :=
  {| err_name := "SyntaxError"; err_message := "empty score" |}.

Definition compile (cfg : CompilerConfig) (source : string) : Completion string :=
  if (source =? "")%string then Throw syntax_error
  else if player_flag cfg then Normal ("; player" ++ source)%string
  else Normal source.

Definition assemble (asm : string) : Completion AssemblerOutput :=
  Normal {| objectCode := [76; 259; -1; Z.of_nat (String.length asm)]%Z |}.

Definition now (n : nat) : Z := (1000 + 7 * Z.of_nat n)%Z.

(** The tab that takes the place of the closed one, or the last tab. *)
Definition reassign (i : nat) (rest : list DocumentPanel) : option nat :=
  match rest with
  | [] => None
  | _ :: _ => Some (Nat.min i (List.length rest - 1))
  end.

Definition doc (n : nat) (text : string) : DocumentPanel :=
  {| doc_id := n; editor_content := text |}.

(** Documents open, the one at position [cur] selected. *)
Definition session (docs : list DocumentPanel) (cur : nat) : World :=
  {| children := docs; currentWidget := Some cur; sidePanel := [];
     nextId := List.length docs; closed := []; compilerCalls := [];
     assemblerCalls := []; playerCalls := []; saved := []; console := [];
     clock := 0 |}.

Definition item : MenuItem := {| item_text := "Piano Roll"; item_checked := false |}.

Definition score : string := "c4 e4 g4".

(** One document open and selected, holding [text]. *)
Definition editing (text : string) : World := session [doc 0 text] 0.

Definition three_open : World := session [doc 0 "a"; doc 1 "b"; doc 2 "c"] 1.

End Sample.

(** ** Collaborators that misbehave

    An assembler that rejects every text, a document panel that selects no
    tab once one has gone, and a clock that starts at the epoch. *)

Module Faulty.

Definition assembly_error : Error :=
  {| err_name := "AssemblyError"; err_message := "unknown mnemonic" |}.

Definition assemble (asm : string) : Completion AssemblerOutput :=
  Throw assembly_error.

Definition reassign (i : nat) (rest : list DocumentPanel) : option nat := None.

Definition now (n : nat) : Z := (5000 * Z.of_nat n)%Z.

End Faulty.

(** The state a short session on the sample collaborators ends in: a new
    document, the sample score typed into it, played, exported as a player
    program, stopped. *)
Definition after_sample_session : World :=
  {| children := [Sample.doc 0 Sample.score];
     currentWidget := Some 0;
     sidePanel := [];
     nextId := 1;
     closed := [];
     compilerCalls :=
       [(None, Sample.score); (Some {| player := true |}, Sample.score)];
     assemblerCalls := ["c4 e4 g4"; "; playerc4 e4 g4"];
     playerCalls := [Loadinitdata [76; 3; 255; 8]%Z 0; Playcont; Stop];
     saved :=
       [({| blob_part := Bytes [76; 3; 255; 16]%Z;
            blob_type := "application/octet-binary" |}, "Untitled.prg")];
     console :=
       ["[bench] compile took 7ms"; "[bench] assemble took 7ms";
        "[bench] compile took 7ms"; "[bench] assemble took 7ms"];
     clock := 8 |}.

(** ** The controller *)

Section Controller.

(** The collaborators, as far as their answers go.  [compile] and
    [assemble] return a value or throw their diagnostic; [now] is the
    sequence of values successive [Date.now()] calls read; [new_content]
    is the text a new [DocumentPanel] starts with. *)
Variable compile : CompilerConfig -> string -> Completion string.
Variable assemble : string -> Completion AssemblerOutput.
Variable now : nat -> Z.
Variable new_content : string.

(** Which tab the document panel selects once the tab at a position has
    gone: from that position and the tabs that remain. *)
Variable reassign : nat -> list DocumentPanel -> option nat.

Definition Date_now : M Z :=
  fun w => (Normal (now (clock w)), tick w).

(** [compiler.compile(source)] on a compiler built with [cfg]. *)
Definition Compiler_compile (cfg : CompilerConfig) (source : string) : M string :=
  fun w => (compile cfg source, log_compile cfg source w).

(** [this._assembler.assemble(asm)]. *)
Definition Assembler_assemble (asm : string) : M AssemblerOutput :=
  fun w => (assemble asm, log_assemble asm w).

(** A call on [this._player]. *)
Definition _player (c : PlayerCall) : M unit := modify (log_player c).

(** *** Documents *)

(** [documentPanel.currentWidget]: the selected child with its position,
    [None] for [null]. *)
Definition docPanel_currentWidget (w : World) : option (nat * DocumentPanel) :=
  match currentWidget w with
  | Some i =>
      match nth_error (children w) i with
      | Some d => Some (i, d)
      | None => None
      end
  | None => None
  end.

(** [get currentDocument()]. *)
Definition currentDocument : M (option (nat * DocumentPanel)) :=
  gets docPanel_currentWidget.

(** [docPanel.childCount()]. *)
Definition childCount (w : World) : nat := List.length (children w).

(** Modelled from the spec: [DocumentPanel.close], which lives in
    [src/document] and in the widget toolkit.  Closing the active
    document removes it from the sequence and reassigns the active
    reference to another member of the sequence, or to null if none
    remain. *)
Definition DocumentPanel_close (i : nat) (d : DocumentPanel) : M unit :=
  modify (fun w =>
    let rest := remove_nth i (children w) in
    set_session rest (reassign i rest) (log_closed d w)).

(** [closeDocument()]: [this.currentDocument.close()]. *)
Definition closeDocument : M unit :=
  cur <- currentDocument ;;
  match cur with
  | Some (i, d) => DocumentPanel_close i d
  | None => throw (TypeError_null "close")
  end.

(** [closeAllDocuments()]:
    [while (docPanel.childCount() > 0) docPanel.currentWidget.close()].
    The loop runs on fuel; [None] says the fuel ran out before the loop
    ended. *)
Fixpoint closeAllDocuments (fuel : nat) (w : World)
  : option (Completion unit * World) :=
  match fuel with
  | O => None
  | S fuel' =>
      if (0 <? childCount w)%nat then
        match docPanel_currentWidget w with
        | Some (i, d) =>
            match DocumentPanel_close i d w with
            | (Normal _, w') => closeAllDocuments fuel' w'
            | (Throw e, w') => Some (Throw e, w')
            end
        | None => Some (Throw (TypeError_null "close"), w)
        end
      else Some (Normal tt, w)
  end.

(** [Private.newFile(app)]. *)
Definition newFile : M unit :=
  id <- gets nextId ;;
  modify (set_nextId (S id)) ;;
  let doc := {| doc_id := id; editor_content := new_content |} in
  i <- gets childCount ;;
  modify (fun w => set_session (children w ++ [doc]) (currentWidget w) w) ;;
  modify (fun w => set_session (children w) (Some i) w).

(** [this.currentDocument.editor.content]. *)
Definition currentDocument_editor_content : M string :=
  cur <- currentDocument ;;
  match cur with
  | Some (_, d) => ret (editor_content d)
  | None => throw (TypeError_null "editor")
  end.

(** *** [Util.bench] *)

(** The closure [timer] of one [bench] call.  Its variable [time] is local
    to that call: it comes in as an argument and goes out, updated, next
    to the value [timer] returns. *)
Definition timer (time : Z) (action : string) : M (Z * Z) :=
  d <- Date_now ;;
  if (time <? 1)%Z || (action =? "start")%string then
    ret (0%Z, d)
  else if (action =? "stop")%string then
    ret ((d - time)%Z, 0%Z)
  else
    ret ((d - time)%Z, time).

Definition bench {A} (name : string) (callback : M A) : M A :=
  let time := 0%Z in
  '(_, time) <- timer time "start" ;;
  result <- callback ;;
  '(execTime, _) <- timer time "stop" ;;
  console_log ("[bench] " ++ name ++ " took " ++ to_string execTime ++ "ms") ;;
  ret result.

(** *** Play and export *)

Definition play : M unit :=
  source <- currentDocument_editor_content ;;
  asm <- bench "compile" (Compiler_compile None source) ;;
  out <- bench "assemble" (Assembler_assemble asm) ;;
  let sidData := Uint8Array_from (objectCode out) in
  _player (Loadinitdata sidData 0) ;;
  _player Playcont.

Definition stop : M unit := _player Stop.

Definition exportSID : M unit :=
  source <- currentDocument_editor_content ;;
  asm <- bench "compile" (Compiler_compile None source) ;;
  out <- bench "assemble" (Assembler_assemble asm) ;;
  let sidData := Uint8Array_from (objectCode out) in
  let blob := {| blob_part := Bytes sidData;
                 blob_type := "application/octet-binary" |} in
  saveAs blob "Untitled.sid".

Definition exportASM : M unit :=
  source <- currentDocument_editor_content ;;
  asm <- bench "compile" (Compiler_compile None source) ;;
  let blob := {| blob_part := Text asm;
                 blob_type := "text/plain;charset=utf-8" |} in
  saveAs blob "Untitled.asm".

Definition exportPlayer : M unit :=
  source <- currentDocument_editor_content ;;
  asm <- bench "compile"
           (Compiler_compile (Some {| player := true |}) source) ;;
  out <- bench "assemble" (Assembler_assemble asm) ;;
  let prgData := Uint8Array_from (objectCode out) in
  let blob := {| blob_part := Bytes prgData;
                 blob_type := "application/octet-binary" |} in
  saveAs blob "Untitled.prg".

(** *** The view menu *)

Definition createPlaceholder (title color : string) : Widget :=
  {| classes := ["content"; color];
     title_text := title;
     title_closable := true |}.

(** [app.panel.sidePanel.insertRight(panel)]. *)
Definition sidePanel_insertRight (panel : Widget) : M unit :=
  modify (dock_right panel).

Definition viewPianoRoll (item : MenuItem) : M unit :=
  let panel := createPlaceholder "Piano Roll" "green" in
  sidePanel_insertRight panel.

Definition viewInstrumentEditor (item : MenuItem) : M unit :=
  let panel := createPlaceholder "Instrument Editor" "red" in
  sidePanel_insertRight panel.

Definition viewOscilloscope (item : MenuItem) : M unit :=
  let panel := createPlaceholder "Oscilloscope" "blue" in
  sidePanel_insertRight panel.

(** *** The build targets

    The four operations the file menu and the play button reach. *)

Inductive BuildTarget : Type :=
| Play
| ExportAssembly
| ExportSoundFile
| ExportPlayerProgram.

Definition run (t : BuildTarget) : M unit :=
  match t with
  | Play => play
  | ExportAssembly => exportASM
  | ExportSoundFile => exportSID
  | ExportPlayerProgram => exportPlayer
  end.

(** The compiler an operation calls: [this._compiler], built by
    [new Compiler()], except in [exportPlayer], which builds its own with
    [new Compiler({ player: true })]. *)
Definition compiler_of (t : BuildTarget) : CompilerConfig :=
  match t with
  | ExportPlayerProgram => Some {| player := true |}
  | _ => None
  end.

(** *** Notions the properties are stated with *)

(** What [timer('stop')] returns in a [bench] call that read [t0] at its
    start and reads [t1] at its stop: their difference, for a clock that
    shows a time past the epoch. *)
Definition elapsed (t0 t1 : Z) : Z :=
  if (t0 <? 1)%Z then 0%Z else (t1 - t0)%Z.

(** The line [bench] prints. *)
Definition report (name : string) (execTime : Z) : string :=
  "[bench] " ++ name ++ " took " ++ to_string execTime ++ "ms".

(** The world once a stage has returned: one reading before the call, the
    call, one reading after it and the report. *)
Definition timed (name : string) (call : World -> World) (w : World) : World :=
  log_console
    (report name (elapsed (now (clock w)) (now (S (clock w)))))
    (tick (call (tick w))).

(** Compile, then assemble: what [play], [exportSID] and [exportPlayer]
    share.  The result is the object code reduced to bytes. *)
Definition build (cfg : CompilerConfig) (source : string) (w : World)
  : Completion (list Z) * World :=
  match compile cfg source with
  | Normal asm =>
      let w1 := timed "compile" (log_compile cfg source) w in
      match assemble asm with
      | Normal out =>
          (Normal (Uint8Array_from (objectCode out)),
           timed "assemble" (log_assemble asm) w1)
      | Throw e => (Throw e, log_assemble asm (tick w1))
      end
  | Throw e => (Throw e, log_compile cfg source (tick w))
  end.

(** Playback is on, as far as the calls of the controller tell:
    [playcont] was called and [stop] was not since. *)
Definition playback_active (calls : list PlayerCall) : bool :=
  fold_left
    (fun active c =>
       match c with
       | Playcont => true
       | Stop => false
       | Loadinitdata _ _ => active
       end)
    calls false.

(** The calls on the player that a step from [w] to [w'] added. *)
Definition player_calls_since (w w' : World) : list PlayerCall :=
  skipn (List.length (playerCalls w)) (playerCalls w').

(** The widgets of the side panel that carry a title. *)
Definition instances (title : string) (w : World) : nat :=
  List.length (filter (fun x => (title_text x =? title)%string) (sidePanel w)).

(** A completion that throws an error of a given name. *)
Definition throws_named {A} (name : string) (r : Completion A * World) : Prop :=
  match fst r with
  | Throw e => err_name e = name
  | Normal _ => False
  end.

(** [bench] reporting a duration for a callback that throws, and then
    throwing the same error. *)
Definition reports_before_rethrow {A} (name : string) (callback : M A)
    (w : World) : Prop :=
  forall e w1,
    callback (tick w) = (Throw e, w1) ->
    fst (bench name callback w) = Throw e /\
    exists t, console (snd (bench name callback w)) = console w1 ++ [report name t].

(** The session invariant: among open documents, the selected tab is one
    of them. *)
Definition active_is_member (w : World) : bool :=
  match children w with
  | [] => true
  | _ :: _ =>
      match docPanel_currentWidget w with
      | Some _ => true
      | None => false
      end
  end.

(** What the specification asks of the reassignment on close: while tabs
    remain, one of them is selected. *)
Definition reassign_selects_member : Prop :=
  forall i rest,
    rest <> [] ->
    exists j, reassign i rest = Some j /\ j < List.length rest.

(** *** The menu bar ([Private.createMenuBar])

    The options objects the menu items are built from.  A handler is named
    by what the closure in the source calls. *)

Inductive Handler : Type :=
| HlogHandler
| HnewFile
| HexportSID
| HexportASM
| HexportPlayer
| HcloseDocument
| HcloseAllDocuments
| HviewPianoRoll
| HviewInstrumentEditor
| HviewOscilloscope.

(** [MenuItem.Check] and [MenuItem.Separator]. *)
Inductive ItemType : Type :=
| ItemCheck
| ItemSeparator.

(** The options of [new MenuItem({ ... })]; an option that is left out is
    [None], and [false] for [disabled]. *)
#[warnings="-register-all"]
Inductive MenuItemOptions : Type :=
| Options (type : option ItemType)
          (text icon shortcut : option string)
          (handler : option Handler)
          (disabled : bool)
          (submenu : option (list MenuItemOptions)).

Definition o_type (o : MenuItemOptions) : option ItemType :=
  match o with Options t _ _ _ _ _ _ => t end.

Definition o_text (o : MenuItemOptions) : option string :=
  match o with Options _ t _ _ _ _ _ => t end.

Definition o_icon (o : MenuItemOptions) : option string :=
  match o with Options _ _ i _ _ _ _ => i end.

Definition o_shortcut (o : MenuItemOptions) : option string :=
  match o with Options _ _ _ s _ _ _ => s end.

Definition o_handler (o : MenuItemOptions) : option Handler :=
  match o with Options _ _ _ _ h _ _ => h end.

Definition o_disabled (o : MenuItemOptions) : bool :=
  match o with Options _ _ _ _ _ d _ => d end.

Definition o_submenu (o : MenuItemOptions) : option (list MenuItemOptions) :=
  match o with Options _ _ _ _ _ _ s => s end.

(** The shapes of the literals in [createMenuBar]. *)

(** [{ text, shortcut, handler }]. *)
Definition with_shortcut (text shortcut : string) (h : Handler) : MenuItemOptions :=
  Options None (Some text) None (Some shortcut) (Some h) false None.

(** [{ text, shortcut, handler, disabled: true }]. *)
Definition disabled_with_shortcut (text shortcut : string) (h : Handler)
  : MenuItemOptions :=
  Options None (Some text) None (Some shortcut) (Some h) true None.

(** [{ text, icon, shortcut, handler, disabled: true }]. *)
Definition disabled_with_icon (text icon shortcut : string) (h : Handler)
  : MenuItemOptions :=
  Options None (Some text) (Some icon) (Some shortcut) (Some h) true None.

(** [{ text, handler }]. *)
Definition plain (text : string) (h : Handler) : MenuItemOptions :=
  Options None (Some text) None None (Some h) false None.

(** [{ text, handler, disabled: true }]. *)
Definition disabled_plain (text : string) (h : Handler) : MenuItemOptions :=
  Options None (Some text) None None (Some h) true None.

(** [{ type: MenuItem.Check, text, handler }]. *)
Definition check (text : string) (h : Handler) : MenuItemOptions :=
  Options (Some ItemCheck) (Some text) None None (Some h) false None.

(** [{ type: MenuItem.Separator }]. *)
Definition separator : MenuItemOptions :=
  Options (Some ItemSeparator) None None None None false None.

(** [{ text, submenu: new Menu([...]) }]. *)
Definition with_submenu (text : string) (items : list MenuItemOptions)
  : MenuItemOptions :=
  Options None (Some text) None None None false (Some items).

Definition fileMenu : list MenuItemOptions :=
  [ with_shortcut "New" "Ctrl+N" HnewFile;
    disabled_with_shortcut "Open" "Ctrl+O" HlogHandler;
    disabled_with_shortcut "Save" "Ctrl+S" HlogHandler;
    disabled_with_shortcut "Save As..." "Ctrl+Shift+S" HlogHandler;
    separator;
    plain "Export SID file" HexportSID;
    with_submenu "Export to..."
      [ plain "Assembly code (.asm)" HexportASM;
        plain "Player program (.prg)" HexportPlayer ];
    separator;
    with_shortcut "Close" "Ctrl+W" HcloseDocument;
    plain "Close All" HcloseAllDocuments ].

Definition editMenu : list MenuItemOptions :=
  [ disabled_with_icon "&Undo" "fa fa-undo" "Ctrl+Z" HlogHandler;
    disabled_with_icon "&Repeat" "fa fa-repeat" "Ctrl+Y" HlogHandler;
    separator;
    disabled_with_icon "&Copy" "fa fa-copy" "Ctrl+C" HlogHandler;
    disabled_with_icon "Cu&t" "fa fa-cut" "Ctrl+X" HlogHandler;
    disabled_with_icon "&Paste" "fa fa-paste" "Ctrl+V" HlogHandler ].

Definition findMenu : list MenuItemOptions :=
  [ disabled_with_shortcut "Find..." "Ctrl+F" HlogHandler;
    disabled_with_shortcut "Find Next" "F3" HlogHandler;
    disabled_with_shortcut "Find Previous" "Shift+F3" HlogHandler;
    separator;
    disabled_with_shortcut "Replace..." "Ctrl+H" HlogHandler;
    disabled_with_shortcut "Replace Next" "Ctrl+Shift+H" HlogHandler ].

Definition viewMenu : list MenuItemOptions :=
  [ check "Piano Roll" HviewPianoRoll;
    check "Instrument Editor" HviewInstrumentEditor;
    check "Oscilloscope" HviewOscilloscope ].

Definition helpMenu : list MenuItemOptions :=
  [ disabled_plain "Documentation" HlogHandler;
    disabled_plain "About" HlogHandler ].

(** [createMenuBar(app)]: the items of the bar. *)
Definition createMenuBar : list MenuItemOptions :=
  [ with_submenu "File" fileMenu;
    with_submenu "Edit" editMenu;
    with_submenu "Find" findMenu;
    with_submenu "View" viewMenu;
    separator;
    with_submenu "Help" helpMenu ].

(** An item with the items of its submenus, at any depth. *)
Fixpoint items_of (o : MenuItemOptions) : list MenuItemOptions :=
  o :: match o with
       | Options _ _ _ _ _ _ (Some sub) =>
           (fix all (l : list MenuItemOptions) : list MenuItemOptions :=
              match l with
              | [] => []
              | x :: rest => items_of x ++ all rest
              end) sub
       | Options _ _ _ _ _ _ None => []
       end.

Definition all_items (bar : list MenuItemOptions) : list MenuItemOptions :=
  flat_map items_of bar.

(** The shortcuts the items of a bar declare. *)
Definition shortcuts (bar : list MenuItemOptions) : list string :=
  flat_map (fun o => match o_shortcut o with Some s => [s] | None => [] end)
           (all_items bar).

(** The item a handler receives: its text as given, unchecked. *)
Definition menu_item (o : MenuItemOptions) : MenuItem :=
  {| item_text := match o_text o with Some t => t | None => "" end;
     item_checked := false |}.

(** [Private.logHandler(item)]. *)
Definition logHandler (item : MenuItem) : M unit :=
  console_log (item_text item).

(** What the closure a [Handler] names does when the toolkit calls it with
    the item.  Only [closeAllDocuments] loops, on the fuel. *)
Definition call_handler (h : Handler) (item : MenuItem) (fuel : nat) (w : World)
  : option (Completion unit * World) :=
  match h with
  | HlogHandler => Some (logHandler item w)
  | HnewFile => Some (newFile w)
  | HexportSID => Some (exportSID w)
  | HexportASM => Some (exportASM w)
  | HexportPlayer => Some (exportPlayer w)
  | HcloseDocument => Some (closeDocument w)
  | HcloseAllDocuments => closeAllDocuments fuel w
  | HviewPianoRoll => Some (viewPianoRoll item w)
  | HviewInstrumentEditor => Some (viewInstrumentEditor item w)
  | HviewOscilloscope => Some (viewOscilloscope item w)
  end.

(** The text of the document at a position replaced. *)
Fixpoint with_content (i : nat) (text : string) (l : list DocumentPanel)
  : list DocumentPanel :=
  match l, i with
  | [], _ => []
  | d :: rest, O => {| doc_id := doc_id d; editor_content := text |} :: rest
  | d :: rest, S j => d :: with_content j text rest
  end.

(** The user types in the editor of the selected document. *)
Definition type_text (text : string) (w : World) : World :=
  match currentWidget w with
  | Some i => set_session (with_content i text (children w)) (currentWidget w) w
  | None => w
  end.

(** The user clicks the tab at a position, if there is one. *)
Definition select_tab (i : nat) (w : World) : World :=
  if (i <? List.length (children w))%nat
  then set_session (children w) (Some i) w
  else w.

(** What a user can make the controller do: pick an item of the menu bar
    that is not disabled, call [play] or [stop]; and what a user does to the
    documents without the controller: type in the editor, click a tab. *)
Inductive Event : Type :=
| Pick (o : MenuItemOptions) (fuel : nat)
| DoPlay
| DoStop
| TypeText (text : string)
| SelectTab (i : nat).

Definition offered (o : MenuItemOptions) : Prop :=
  In o (all_items createMenuBar) /\ o_disabled o = false.

Definition react (ev : Event) (w : World) : option (Completion unit * World) :=
  match ev with
  | Pick o fuel =>
      match o_handler o with
      | Some h => call_handler h (menu_item o) fuel w
      | None => Some (Normal tt, w)
      end
  | DoPlay => Some (play w)
  | DoStop => Some (stop w)
  | TypeText text => Some (Normal tt, type_text text w)
  | SelectTab i => Some (Normal tt, select_tab i w)
  end.

Definition allowed (ev : Event) : Prop :=
  match ev with
  | Pick o _ => offered o
  | DoPlay | DoStop | TypeText _ | SelectTab _ => True
  end.

(** The states the application reaches from [fresh], whether the calls
    return or throw. *)
Inductive reachable : World -> Prop :=
| reachable_fresh : reachable fresh
| reachable_react ev w r w' :
    reachable w -> allowed ev -> react ev w = Some (r, w') -> reachable w'.

(** *** More notions the properties are stated with *)

(** A byte. *)
Definition is_byte (x : Z) : Prop := (0 <= x < 256)%Z.

(** A call on the player that passes bytes only, for subtune 0. *)
Definition byte_call (c : PlayerCall) : Prop :=
  match c with
  | Loadinitdata data subtune => Forall is_byte data /\ subtune = 0%Z
  | Playcont | Stop => True
  end.

(** A saved file of one of the three kinds the controller writes. *)
Definition known_artifact (f : Blob * string) : Prop :=
  match blob_part (fst f) with
  | Text _ =>
      snd f = "Untitled.asm" /\ blob_type (fst f) = "text/plain;charset=utf-8"
  | Bytes b =>
      (snd f = "Untitled.sid" \/ snd f = "Untitled.prg") /\
      blob_type (fst f) = "application/octet-binary" /\
      Forall is_byte b
  end.

(** A text the compiler returned on one of the calls logged. *)
Definition compiled (calls : list (CompilerConfig * string)) (asm : string) : Prop :=
  exists cfg source, In (cfg, source) calls /\ compile cfg source = Normal asm.

(** A line [bench] printed for one of the two stages. *)
Definition stage_report (line : string) : Prop :=
  exists t, line = report "compile" t \/ line = report "assemble" t.

(** The three items of the view menu. *)
Inductive View : Type :=
| PianoRoll
| InstrumentEditor
| Oscilloscope.

Definition view_handler (v : View) : MenuItem -> M unit :=
  match v with
  | PianoRoll => viewPianoRoll
  | InstrumentEditor => viewInstrumentEditor
  | Oscilloscope => viewOscilloscope
  end.

(** The placeholder the handler of a view docks. *)
Definition placeholder_of (v : View) : Widget :=
  match v with
  | PianoRoll => createPlaceholder "Piano Roll" "green"
  | InstrumentEditor => createPlaceholder "Instrument Editor" "red"
  | Oscilloscope => createPlaceholder "Oscilloscope" "blue"
  end.

(** The view items picked one after the other. *)
Fixpoint pick_views (vs : list View) (item : MenuItem) (w : World) : World :=
  match vs with
  | [] => w
  | v :: rest => pick_views rest item (snd (view_handler v item w))
  end.

(** Two states with the same logs of calls and the same output. *)
Definition same_logs (w w' : World) : Prop :=
  compilerCalls w' = compilerCalls w /\
  assemblerCalls w' = assemblerCalls w /\
  playerCalls w' = playerCalls w /\
  saved w' = saved w /\
  console w' = console w /\
  clock w' = clock w.

(** Events one after the other; [None] when a loop ran out of fuel. *)
Fixpoint react_all (evs : list Event) (w : World) : option World :=
  match evs with
  | [] => Some w
  | ev :: rest =>
      match react ev w with
      | Some (_, w') => react_all rest w'
      | None => None
      end
  end.

(** A short session: New, the score typed, play, Export to... Player
    program, stop. *)
Definition sample_events : list Event :=
  [ Pick (with_shortcut "New" "Ctrl+N" HnewFile) 0;
    TypeText "c4 e4 g4";
    DoPlay;
    Pick (plain "Player program (.prg)" HexportPlayer) 0;
    DoStop ].

(** ** Properties *)

(** *** The monad *)

Lemma bind_normal {A B} (m : M A) (k : A -> M B) w a w' :
  m w = (Normal a, w') -> bind m k w = k a w'.
Proof. intros H. unfold bind. now rewrite H. Qed.

Lemma bind_throw {A B} (m : M A) (k : A -> M B) w e w' :
  m w = (Throw e, w') -> bind m k w = (Throw e, w').
Proof. intros H. unfold bind. now rewrite H. Qed.

(** *** [Util.bench] *)

Lemma elapsed_difference t0 t1 : (1 <= t0)%Z -> elapsed t0 t1 = (t1 - t0)%Z.
Proof.
  intros H. unfold elapsed.
  destruct (Z.ltb_spec t0 1); [lia | reflexivity].
Qed.

Lemma timer_start time w :
  timer time "start" w = (Normal (0%Z, now (clock w)), tick w).
Proof.
  unfold timer, Date_now, bind, ret. simpl.
  now rewrite orb_true_r.
Qed.

Lemma timer_stop time w :
  timer time "stop" w =
    (Normal (elapsed time (now (clock w)),
             if (time <? 1)%Z then now (clock w) else 0%Z), tick w).
Proof.
  unfold timer, Date_now, bind, ret, elapsed. simpl.
  now destruct (time <? 1)%Z.
Qed.

(** A callback that returns: its result comes back, after one line that
    reports the time between the two readings of this call. *)
Lemma bench_returns {A} name (callback : M A) w r w1 :
  callback (tick w) = (Normal r, w1) ->
  bench name callback w =
    (Normal r,
     log_console (report name (elapsed (now (clock w)) (now (clock w1))))
                 (tick w1)).
Proof.
  intros H. unfold bench.
  rewrite (bind_normal _ _ _ _ _ (timer_start _ w)).
  rewrite (bind_normal _ _ _ _ _ H).
  rewrite (bind_normal _ _ _ _ _ (timer_stop _ w1)).
  reflexivity.
Qed.

Lemma bench_throws {A} name (callback : M A) w e w1 :
  callback (tick w) = (Throw e, w1) ->
  bench name callback w = (Throw e, w1).
Proof.
  intros H. unfold bench.
  rewrite (bind_normal _ _ _ _ _ (timer_start _ w)).
  now rewrite (bind_throw _ _ _ _ _ H).
Qed.

(** *** The stages of the pipeline *)

Lemma source_some w i d :
  docPanel_currentWidget w = Some (i, d) ->
  currentDocument_editor_content w = (Normal (editor_content d), w).
Proof.
  intros H. unfold currentDocument_editor_content, currentDocument, gets, bind.
  now rewrite H.
Qed.

Lemma source_none w :
  docPanel_currentWidget w = None ->
  currentDocument_editor_content w = (Throw (TypeError_null "editor"), w).
Proof.
  intros H. unfold currentDocument_editor_content, currentDocument, gets, bind.
  now rewrite H.
Qed.

Lemma compile_stage cfg source w :
  bench "compile" (Compiler_compile cfg source) w =
    match compile cfg source with
    | Normal asm => (Normal asm, timed "compile" (log_compile cfg source) w)
    | Throw e => (Throw e, log_compile cfg source (tick w))
    end.
Proof.
  destruct (compile cfg source) as [asm|e] eqn:E.
  - rewrite (bench_returns _ _ w asm (log_compile cfg source (tick w)));
      [reflexivity|].
    unfold Compiler_compile. now rewrite E.
  - erewrite bench_throws; [reflexivity|].
    unfold Compiler_compile. now rewrite E.
Qed.

Lemma assemble_stage asm w :
  bench "assemble" (Assembler_assemble asm) w =
    match assemble asm with
    | Normal out => (Normal out, timed "assemble" (log_assemble asm) w)
    | Throw e => (Throw e, log_assemble asm (tick w))
    end.
Proof.
  destruct (assemble asm) as [out|e] eqn:E.
  - rewrite (bench_returns _ _ w out (log_assemble asm (tick w)));
      [reflexivity|].
    unfold Assembler_assemble. now rewrite E.
  - erewrite bench_throws; [reflexivity|].
    unfold Assembler_assemble. now rewrite E.
Qed.

Lemma play_unfold w :
  play w =
    match docPanel_currentWidget w with
    | Some (_, d) =>
        match build None (editor_content d) w with
        | (Normal sidData, w') =>
            (Normal tt, log_player Playcont (log_player (Loadinitdata sidData 0) w'))
        | (Throw e, w') => (Throw e, w')
        end
    | None => (Throw (TypeError_null "editor"), w)
    end.
Proof.
  unfold play, build.
  destruct (docPanel_currentWidget w) as [[i d]|] eqn:Hd.
  - rewrite (bind_normal _ _ _ _ _ (source_some _ _ _ Hd)).
    unfold bind at 1. rewrite compile_stage.
    destruct (compile None (editor_content d)) as [asm|e]; [|reflexivity].
    unfold bind at 1. rewrite assemble_stage.
    destruct (assemble asm) as [out|e]; reflexivity.
  - now rewrite (bind_throw _ _ _ _ _ (source_none _ Hd)).
Qed.

Lemma exportSID_unfold w :
  exportSID w =
    match docPanel_currentWidget w with
    | Some (_, d) =>
        match build None (editor_content d) w with
        | (Normal sidData, w') =>
            (Normal tt,
             log_saved {| blob_part := Bytes sidData;
                          blob_type := "application/octet-binary" |}
                       "Untitled.sid" w')
        | (Throw e, w') => (Throw e, w')
        end
    | None => (Throw (TypeError_null "editor"), w)
    end.
Proof.
  unfold exportSID, build.
  destruct (docPanel_currentWidget w) as [[i d]|] eqn:Hd.
  - rewrite (bind_normal _ _ _ _ _ (source_some _ _ _ Hd)).
    unfold bind at 1. rewrite compile_stage.
    destruct (compile None (editor_content d)) as [asm|e]; [|reflexivity].
    unfold bind at 1. rewrite assemble_stage.
    destruct (assemble asm) as [out|e]; reflexivity.
  - now rewrite (bind_throw _ _ _ _ _ (source_none _ Hd)).
Qed.

Lemma exportPlayer_unfold w :
  exportPlayer w =
    match docPanel_currentWidget w with
    | Some (_, d) =>
        match build (Some {| player := true |}) (editor_content d) w with
        | (Normal prgData, w') =>
            (Normal tt,
             log_saved {| blob_part := Bytes prgData;
                          blob_type := "application/octet-binary" |}
                       "Untitled.prg" w')
        | (Throw e, w') => (Throw e, w')
        end
    | None => (Throw (TypeError_null "editor"), w)
    end.
Proof.
  unfold exportPlayer, build.
  destruct (docPanel_currentWidget w) as [[i d]|] eqn:Hd.
  - rewrite (bind_normal _ _ _ _ _ (source_some _ _ _ Hd)).
    unfold bind at 1. rewrite compile_stage.
    destruct (compile _ (editor_content d)) as [asm|e]; [|reflexivity].
    unfold bind at 1. rewrite assemble_stage.
    destruct (assemble asm) as [out|e]; reflexivity.
  - now rewrite (bind_throw _ _ _ _ _ (source_none _ Hd)).
Qed.

Lemma exportASM_unfold w :
  exportASM w =
    match docPanel_currentWidget w with
    | Some (_, d) =>
        match compile None (editor_content d) with
        | Normal asm =>
            (Normal tt,
             log_saved {| blob_part := Text asm;
                          blob_type := "text/plain;charset=utf-8" |}
                       "Untitled.asm"
                       (timed "compile" (log_compile None (editor_content d)) w))
        | Throw e => (Throw e, log_compile None (editor_content d) (tick w))
        end
    | None => (Throw (TypeError_null "editor"), w)
    end.
Proof.
  unfold exportASM.
  destruct (docPanel_currentWidget w) as [[i d]|] eqn:Hd.
  - rewrite (bind_normal _ _ _ _ _ (source_some _ _ _ Hd)).
    unfold bind at 1. rewrite compile_stage.
    destruct (compile None (editor_content d)) as [asm|e]; reflexivity.
  - now rewrite (bind_throw _ _ _ _ _ (source_none _ Hd)).
Qed.

Lemma no_children_no_current w :
  children w = [] -> docPanel_currentWidget w = None.
Proof.
  intros H. unfold docPanel_currentWidget. rewrite H.
  destruct (currentWidget w) as [[|i]|]; reflexivity.
Qed.

Lemma build_compile_failure cfg source w diag :
  compile cfg source = Throw diag ->
  build cfg source w = (Throw diag, log_compile cfg source (tick w)).
Proof. intros H. unfold build. now rewrite H. Qed.

Lemma build_compilerCalls cfg source w :
  compilerCalls (snd (build cfg source w)) = compilerCalls w ++ [(cfg, source)].
Proof.
  unfold build.
  destruct (compile cfg source) as [asm|e]; [|reflexivity].
  destruct (assemble asm); reflexivity.
Qed.

(** *** The claims on the pipeline *)

(** C1.  When the compiler throws on the text of the active document,
    every operation of the pipeline ends with that very diagnostic thrown
    (the compile error of the specification), without a call to the
    assembler, to the player or to the file saver. *)
Theorem compile_failure_aborts_pipeline :
  forall t w i d diag,
    docPanel_currentWidget w = Some (i, d) ->
    compile (compiler_of t) (editor_content d) = Throw diag ->
    fst (run t w) = Throw diag /\
    assemblerCalls (snd (run t w)) = assemblerCalls w /\
    playerCalls (snd (run t w)) = playerCalls w /\
    saved (snd (run t w)) = saved w.
Proof.
  intros t w i d diag Hd Hc.
  destruct t; simpl in Hc; simpl run.
  - rewrite play_unfold, Hd, (build_compile_failure _ _ _ _ Hc). now simpl.
  - rewrite exportASM_unfold, Hd, Hc. now simpl.
  - rewrite exportSID_unfold, Hd, (build_compile_failure _ _ _ _ Hc). now simpl.
  - rewrite exportPlayer_unfold, Hd, (build_compile_failure _ _ _ _ Hc). now simpl.
Qed.

(** C2.  [exportASM] never calls the assembler, and what it saves is the
    text the compiler returned, as it is; when there is no such text it
    saves nothing. *)
Theorem exportASM_emits_compiler_output :
  forall w,
    assemblerCalls (snd (exportASM w)) = assemblerCalls w /\
    saved (snd (exportASM w)) =
      match docPanel_currentWidget w with
      | Some (_, d) =>
          match compile None (editor_content d) with
          | Normal asm =>
              saved w ++ [({| blob_part := Text asm;
                              blob_type := "text/plain;charset=utf-8" |},
                           "Untitled.asm")]
          | Throw _ => saved w
          end
      | None => saved w
      end.
Proof.
  intros w. rewrite exportASM_unfold.
  destruct (docPanel_currentWidget w) as [[i d]|]; [|now split].
  destruct (compile None (editor_content d)); now split.
Qed.

(** C6.  Every operation calls the compiler once, on the text of the
    active document, and the compiler it calls has the player option set
    exactly when the operation is the export of the player program. *)
Theorem player_flag_iff_export_player :
  forall t w i d,
    docPanel_currentWidget w = Some (i, d) ->
    compilerCalls (snd (run t w)) =
      compilerCalls w ++ [(compiler_of t, editor_content d)] /\
    (player_flag (compiler_of t) = true <-> t = ExportPlayerProgram).
Proof.
  intros t w i d Hd. split.
  - destruct t; simpl run; simpl compiler_of.
    + rewrite play_unfold, Hd, <- build_compilerCalls.
      now destruct (build None (editor_content d) w) as [[b|e] w'].
    + rewrite exportASM_unfold, Hd.
      now destruct (compile None (editor_content d)).
    + rewrite exportSID_unfold, Hd, <- build_compilerCalls.
      now destruct (build None (editor_content d) w) as [[b|e] w'].
    + rewrite exportPlayer_unfold, Hd, <- build_compilerCalls.
      now destruct (build _ (editor_content d) w) as [[b|e] w'].
  - destruct t; simpl; split; intros H; congruence.
Qed.

(** C10.  On the same text, the bytes [play] loads into the player are
    the bytes [exportSID] saves under [Untitled.sid]; when the compiler or
    the assembler throws, neither loads nor saves anything. *)
Theorem play_and_exportSID_same_bytes :
  forall w1 w2 i1 d1 i2 d2,
    docPanel_currentWidget w1 = Some (i1, d1) ->
    docPanel_currentWidget w2 = Some (i2, d2) ->
    editor_content d1 = editor_content d2 ->
    match compile None (editor_content d1) with
    | Normal asm =>
        match assemble asm with
        | Normal out =>
            let bytes := Uint8Array_from (objectCode out) in
            playerCalls (snd (play w1)) =
              playerCalls w1 ++ [Loadinitdata bytes 0; Playcont] /\
            saved (snd (exportSID w2)) =
              saved w2 ++ [({| blob_part := Bytes bytes;
                               blob_type := "application/octet-binary" |},
                            "Untitled.sid")]
        | Throw _ =>
            playerCalls (snd (play w1)) = playerCalls w1 /\
            saved (snd (exportSID w2)) = saved w2
        end
    | Throw _ =>
        playerCalls (snd (play w1)) = playerCalls w1 /\
        saved (snd (exportSID w2)) = saved w2
    end.
Proof.
  intros w1 w2 i1 d1 i2 d2 H1 H2 Heq.
  rewrite play_unfold, exportSID_unfold, H1, H2, <- Heq.
  unfold build.
  destruct (compile None (editor_content d1)) as [asm|e]; [|now split].
  destruct (assemble asm) as [out|e]; simpl; rewrite <- ?app_assoc; now split.
Qed.

(** C4 (amended).  With no document open, [closeDocument] and every
    operation of the pipeline end with the [TypeError] of the runtime for
    a property of [null], before any other call, and leave the world as
    it was. *)
Theorem no_document_throws_TypeError :
  forall w,
    children w = [] ->
    closeDocument w = (Throw (TypeError_null "close"), w) /\
    currentDocument_editor_content w = (Throw (TypeError_null "editor"), w) /\
    (forall t, run t w = (Throw (TypeError_null "editor"), w)).
Proof.
  intros w H. pose proof (no_children_no_current _ H) as Hn.
  split; [|split].
  - unfold closeDocument, currentDocument, gets, bind. now rewrite Hn.
  - now apply source_none.
  - intros []; simpl run.
    + now rewrite play_unfold, Hn.
    + now rewrite exportASM_unfold, Hn.
    + now rewrite exportSID_unfold, Hn.
    + now rewrite exportPlayer_unfold, Hn.
Qed.

(** C5 (amended).  [play] calls [loadinitdata] with the new bytes and
    subtune 0, then [playcont], and nothing else on the player, whether or
    not playback is on; [stop] is the one operation that calls the
    player's [stop]. *)
Theorem play_loads_and_starts_without_stop :
  forall w i d asm out,
    docPanel_currentWidget w = Some (i, d) ->
    compile None (editor_content d) = Normal asm ->
    assemble asm = Normal out ->
    playerCalls (snd (play w)) =
      playerCalls w ++
        [Loadinitdata (Uint8Array_from (objectCode out)) 0; Playcont] /\
    playerCalls (snd (stop w)) = playerCalls w ++ [Stop].
Proof.
  intros w i d asm out Hd Hc Ha. split; [|reflexivity].
  rewrite play_unfold, Hd. unfold build. rewrite Hc, Ha. simpl.
  now rewrite <- app_assoc.
Qed.

(** *** The claims on [Util.bench] *)

(** C8 (amended).  When the callback throws, [bench] ends with the same
    error thrown and leaves the world as the callback left it: it returns
    no result, takes no second reading of the clock and prints no
    report. *)
Theorem bench_rethrows_unchanged :
  forall A name (callback : M A) w e w1,
    callback (tick w) = (Throw e, w1) ->
    fst (bench name callback w) = Throw e /\
    snd (bench name callback w) = w1 /\
    console (snd (bench name callback w)) = console w1 /\
    clock (snd (bench name callback w)) = clock w1.
Proof.
  intros A name callback w e w1 H.
  rewrite (bench_throws _ _ _ _ _ H). now simpl.
Qed.

(** A [bench] call whose callback is nothing but a [bench] call. *)
Lemma bench_in_bench {A} outer inner (callback : M A) w r w1 :
  callback (tick (tick w)) = (Normal r, w1) ->
  bench outer (bench inner callback) w =
    (Normal r,
     log_console
       (report outer (elapsed (now (clock w)) (now (S (clock w1)))))
       (tick
          (log_console
             (report inner (elapsed (now (S (clock w))) (now (clock w1))))
             (tick w1)))).
Proof.
  intros H. apply bench_returns.
  now rewrite (bench_returns _ _ _ _ _ H).
Qed.

(** C9.  An outer [bench] call whose callback does some work, calls
    [bench] itself and goes on with the result.  The inner call returns the
    result of its own callback and reports the time between its own two
    readings of the clock; so does the outer call, whose report spans the
    whole callback, whatever the inner call read and printed in between. *)
Theorem nested_bench_keeps_own_timer :
  forall A B C outer inner
         (before : M B) (callback : M A) (after : B -> A -> M C)
         w b wb a wa c wc,
    before (tick w) = (Normal b, wb) ->
    callback (tick wb) = (Normal a, wa) ->
    after b a
      (log_console (report inner (elapsed (now (clock wb)) (now (clock wa))))
                   (tick wa)) = (Normal c, wc) ->
    bench inner callback wb =
      (Normal a,
       log_console (report inner (elapsed (now (clock wb)) (now (clock wa))))
                   (tick wa)) /\
    bench outer (b <- before ;; a <- bench inner callback ;; after b a) w =
      (Normal c,
       log_console (report outer (elapsed (now (clock w)) (now (clock wc))))
                   (tick wc)).
Proof.
  intros A B C outer inner before callback after w b wb a wa c wc Hb Hc Ha.
  pose proof (bench_returns inner callback wb a wa Hc) as Hin.
  split; [exact Hin|].
  apply bench_returns.
  rewrite (bind_normal _ _ _ _ _ Hb).
  rewrite (bind_normal _ _ _ _ _ Hin).
  exact Ha.
Qed.

(** *** The claim on the view menu *)

Lemma instances_insertRight title panel w :
  instances title (snd (sidePanel_insertRight panel w)) =
    instances title w +
    (if (title_text panel =? title)%string then 1 else 0).
Proof.
  unfold instances, sidePanel_insertRight, modify. simpl.
  rewrite filter_app, length_app. simpl.
  now destruct (title_text panel =? title)%string.
Qed.

(** C7 (what the handlers do).  A view handler docks one more placeholder
    every time it runs: after two runs from any state the side panel
    shows two more panels of that title than before, two in all when the
    application is fresh. *)
Theorem view_handler_docks_a_panel_each_time :
  forall item w,
    let twice (h : MenuItem -> M unit) := snd (h item (snd (h item w))) in
    instances "Piano Roll" (twice viewPianoRoll) =
      instances "Piano Roll" w + 2 /\
    instances "Instrument Editor" (twice viewInstrumentEditor) =
      instances "Instrument Editor" w + 2 /\
    instances "Oscilloscope" (twice viewOscilloscope) =
      instances "Oscilloscope" w + 2 /\
    instances "Piano Roll" (snd (viewPianoRoll item (snd (viewPianoRoll item fresh)))) = 2.
Proof.
  intros item w twice. unfold twice.
  unfold viewPianoRoll, viewInstrumentEditor, viewOscilloscope.
  rewrite !instances_insertRight. simpl. repeat split; lia.
Qed.

(** *** The claim on [closeAllDocuments] *)

Lemma remove_nth_length {A} (l : list A) i d :
  nth_error l i = Some d -> S (List.length (remove_nth i l)) = List.length l.
Proof.
  revert i. induction l as [|x l IH]; intros [|i] H; simpl in *;
    try discriminate; [reflexivity|].
  now rewrite (IH _ H).
Qed.

Lemma remove_nth_Permutation {A} (l : list A) i d :
  nth_error l i = Some d -> Permutation (d :: remove_nth i l) l.
Proof.
  revert i. induction l as [|x l IH]; intros [|i] H; simpl in *;
    try discriminate.
  - injection H as ->. apply Permutation_refl.
  - eapply perm_trans; [apply perm_swap|].
    apply perm_skip. now apply IH.
Qed.

Lemma nth_error_member {A} (l : list A) j :
  j < List.length l -> exists d, nth_error l j = Some d.
Proof.
  intros H. destruct (nth_error l j) eqn:E; [eauto|].
  apply nth_error_None in E. lia.
Qed.

Lemma close_keeps_invariant w i d :
  reassign_selects_member ->
  active_is_member (snd (DocumentPanel_close i d w)) = true.
Proof.
  intros Hr. unfold DocumentPanel_close, modify, active_is_member. simpl.
  destruct (remove_nth i (children w)) as [|x rest] eqn:E; [reflexivity|].
  destruct (Hr i (x :: rest)) as (j & Hj & Hlt); [discriminate|].
  unfold docPanel_currentWidget. simpl. rewrite Hj.
  destruct (nth_error_member _ _ Hlt) as (d' & ->). reflexivity.
Qed.

Lemma fresh_invariant : active_is_member fresh = true.
Proof. reflexivity. Qed.

Lemma closeDocument_keeps_invariant w :
  reassign_selects_member ->
  active_is_member w = true ->
  active_is_member (snd (closeDocument w)) = true.
Proof.
  intros Hr Hinv. unfold closeDocument, currentDocument, gets, bind.
  destruct (docPanel_currentWidget w) as [[i d]|]; [|exact Hinv].
  now apply close_keeps_invariant.
Qed.

Lemma newFile_keeps_invariant w :
  active_is_member (snd (newFile w)) = true.
Proof.
  unfold newFile, bind, gets, modify, active_is_member, docPanel_currentWidget.
  simpl. unfold childCount. rewrite nth_error_app2 by (simpl; lia).
  simpl. rewrite Nat.sub_diag. simpl.
  now destruct (children w ++ _).
Qed.

Lemma closeAllDocuments_run :
  reassign_selects_member ->
  forall n w fuel,
    List.length (children w) = n ->
    n < fuel ->
    active_is_member w = true ->
    exists w' trace,
      closeAllDocuments fuel w = Some (Normal tt, w') /\
      children w' = [] /\
      closed w' = closed w ++ trace /\
      Permutation trace (children w).
Proof.
  intros Hr. induction n as [|n IH]; intros w fuel Hn Hf Hinv.
  - destruct fuel as [|fuel]; [lia|]. simpl. unfold childCount. rewrite Hn.
    simpl. exists w, []. rewrite app_nil_r.
    apply length_zero_iff_nil in Hn. rewrite Hn. now repeat split.
  - destruct fuel as [|fuel]; [lia|]. simpl. unfold childCount. rewrite Hn.
    simpl.
    unfold active_is_member in Hinv.
    destruct (children w) as [|x l] eqn:Hc; [discriminate|].
    destruct (docPanel_currentWidget w) as [[i d]|] eqn:Hd; [|discriminate].
    assert (Hnth : nth_error (children w) i = Some d).
    { unfold docPanel_currentWidget in Hd.
      destruct (currentWidget w) as [k|]; [|discriminate].
      destruct (nth_error (children w) k) eqn:E; [|discriminate].
      now injection Hd as -> ->. }
    pose proof (remove_nth_length _ _ _ Hnth) as Hlen.
    pose proof (remove_nth_Permutation _ _ _ Hnth) as Hperm.
    rewrite Hc in Hlen, Hperm.
    destruct (IH (snd (DocumentPanel_close i d w)) fuel) as (w' & trace & Hrun & He & Hcl & Hp).
    + simpl. rewrite Hc. simpl in Hn, Hlen. lia.
    + lia.
    + now apply close_keeps_invariant.
    + exists w', (d :: trace). simpl in Hrun, Hcl, Hp. rewrite Hc in Hrun, Hp.
      repeat split; try assumption.
      * rewrite Hcl, <- app_assoc. reflexivity.
      * eapply perm_trans; [apply perm_skip, Hp|exact Hperm].
Qed.

(** C3.  On a session of N documents that satisfies the session
    invariant, [closeAllDocuments] ends, whatever fuel above N it is
    given, with the session empty, after N calls of [close]: the
    documents closed are the N that were open, each of them once. *)
Theorem closeAllDocuments_closes_each_document_once :
  forall w fuel,
    reassign_selects_member ->
    active_is_member w = true ->
    List.length (children w) < fuel ->
    exists w' trace,
      closeAllDocuments fuel w = Some (Normal tt, w') /\
      children w' = [] /\
      closed w' = closed w ++ trace /\
      List.length trace = List.length (children w) /\
      Permutation trace (children w).
Proof.
  intros w fuel Hr Hinv Hf.
  destruct (closeAllDocuments_run Hr _ w fuel eq_refl Hf Hinv)
    as (w' & trace & Hrun & He & Hcl & Hp).
  exists w', trace. repeat split; try assumption.
  now apply Permutation_length.
Qed.

(** *** More on the pipeline *)

Ltac stage_cases w :=
  (destruct (docPanel_currentWidget w) as [[? ?]|] eqn:?Hcur);
  unfold build;
  repeat match goal with
    | |- context [match compile ?c ?s with _ => _ end] =>
        destruct (compile c s) eqn:?Hcomp
    | |- context [match assemble ?a with _ => _ end] =>
        destruct (assemble a) eqn:?Hasm
    end;
  simpl.

Ltac run_cases t w :=
  destruct t; simpl run;
  [ rewrite play_unfold | rewrite exportASM_unfold
  | rewrite exportSID_unfold | rewrite exportPlayer_unfold ];
  stage_cases w.

(** X1.  When the compiler returns and the assembler throws, [play],
    [exportSID] and [exportPlayer] end with the diagnostic of the assembler
    thrown: nothing is loaded, started or saved, and the one report printed
    is that of the compile stage. *)
Theorem assemble_failure_aborts_after_compile :
  forall t w i d asm diag,
    t <> ExportAssembly ->
    docPanel_currentWidget w = Some (i, d) ->
    compile (compiler_of t) (editor_content d) = Normal asm ->
    assemble asm = Throw diag ->
    fst (run t w) = Throw diag /\
    playerCalls (snd (run t w)) = playerCalls w /\
    saved (snd (run t w)) = saved w /\
    console (snd (run t w)) =
      console w ++
        [report "compile" (elapsed (now (clock w)) (now (S (clock w))))].
Proof.
  intros t w i d asm diag Ht Hd Hc Ha.
  destruct t; try congruence; simpl in Hc; simpl run.
  - rewrite play_unfold, Hd. unfold build. rewrite Hc, Ha. now simpl.
  - rewrite exportSID_unfold, Hd. unfold build. rewrite Hc, Ha. now simpl.
  - rewrite exportPlayer_unfold, Hd. unfold build. rewrite Hc, Ha. now simpl.
Qed.

(** X2.  [play], [exportSID] and [exportPlayer] call the assembler once,
    on the very text the compiler returned, whether the assembler then
    returns or throws. *)
Theorem assembler_gets_compiler_output :
  forall t w i d asm,
    t <> ExportAssembly ->
    docPanel_currentWidget w = Some (i, d) ->
    compile (compiler_of t) (editor_content d) = Normal asm ->
    assemblerCalls (snd (run t w)) = assemblerCalls w ++ [asm].
Proof.
  intros t w i d asm Ht Hd Hc.
  destruct t; try congruence; simpl in Hc; simpl run.
  - rewrite play_unfold, Hd. unfold build. rewrite Hc.
    now destruct (assemble asm).
  - rewrite exportSID_unfold, Hd. unfold build. rewrite Hc.
    now destruct (assemble asm).
  - rewrite exportPlayer_unfold, Hd. unfold build. rewrite Hc.
    now destruct (assemble asm).
Qed.

(** X3.  When both stages return, [exportPlayer] saves the object code,
    reduced to bytes, under [Untitled.prg] as [application/octet-binary],
    and saves nothing else. *)
Theorem exportPlayer_saves_program :
  forall w i d asm out,
    docPanel_currentWidget w = Some (i, d) ->
    compile (Some {| player := true |}) (editor_content d) = Normal asm ->
    assemble asm = Normal out ->
    fst (exportPlayer w) = Normal tt /\
    saved (snd (exportPlayer w)) =
      saved w ++ [({| blob_part := Bytes (Uint8Array_from (objectCode out));
                      blob_type := "application/octet-binary" |},
                   "Untitled.prg")].
Proof.
  intros w i d asm out Hd Hc Ha.
  rewrite exportPlayer_unfold, Hd. unfold build. rewrite Hc, Ha. now simpl.
Qed.

(** X4.  The three exports never call the player and [play] never saves a
    file, whatever the stages do. *)
Theorem exports_leave_player_and_play_saves_nothing :
  forall w,
    playerCalls (snd (exportSID w)) = playerCalls w /\
    playerCalls (snd (exportASM w)) = playerCalls w /\
    playerCalls (snd (exportPlayer w)) = playerCalls w /\
    saved (snd (play w)) = saved w.
Proof.
  intros w. repeat split.
  - rewrite exportSID_unfold. stage_cases w; reflexivity.
  - rewrite exportASM_unfold. stage_cases w; reflexivity.
  - rewrite exportPlayer_unfold. stage_cases w; reflexivity.
  - rewrite play_unfold. stage_cases w; reflexivity.
Qed.

(** X5.  When both stages return, an operation that assembles reads the
    clock four times and prints two reports, the compile stage first: each
    stage is timed on its own pair of readings. *)
Theorem stages_are_timed_one_by_one :
  forall t w i d asm out,
    t <> ExportAssembly ->
    docPanel_currentWidget w = Some (i, d) ->
    compile (compiler_of t) (editor_content d) = Normal asm ->
    assemble asm = Normal out ->
    fst (run t w) = Normal tt /\
    clock (snd (run t w)) = 4 + clock w /\
    console (snd (run t w)) =
      console w ++
        [report "compile" (elapsed (now (clock w)) (now (1 + clock w)));
         report "assemble" (elapsed (now (2 + clock w)) (now (3 + clock w)))].
Proof.
  intros t w i d asm out Ht Hd Hc Ha.
  destruct t; try congruence; simpl in Hc; simpl run.
  - rewrite play_unfold, Hd. unfold build. rewrite Hc, Ha. simpl.
    now rewrite <- app_assoc.
  - rewrite exportSID_unfold, Hd. unfold build. rewrite Hc, Ha. simpl.
    now rewrite <- app_assoc.
  - rewrite exportPlayer_unfold, Hd. unfold build. rewrite Hc, Ha. simpl.
    now rewrite <- app_assoc.
Qed.

Lemma pipeline_session t w :
  children (snd (run t w)) = children w /\
  currentWidget (snd (run t w)) = currentWidget w.
Proof. run_cases t w; now split. Qed.

(** X6.  No operation of the pipeline touches the documents, the selected
    tab or the side panel, whether it returns or throws: the session is as
    it was for the next attempt. *)
Theorem pipeline_leaves_session :
  forall t w,
    children (snd (run t w)) = children w /\
    currentWidget (snd (run t w)) = currentWidget w /\
    sidePanel (snd (run t w)) = sidePanel w /\
    closed (snd (run t w)) = closed w.
Proof.
  intros t w. run_cases t w; repeat split; reflexivity.
Qed.

(** *** More on [Util.bench] *)

(** X7.  When the callback returns, [bench] returns its result, takes its
    second reading right after the callback and prints one line after
    whatever the callback printed.  The time reported is the difference of
    the two readings, except that a first reading below 1 makes it 0,
    however long the callback took. *)
Theorem bench_returns_result_and_reports :
  forall A name (callback : M A) w r w1,
    callback (tick w) = (Normal r, w1) ->
    fst (bench name callback w) = Normal r /\
    clock (snd (bench name callback w)) = S (clock w1) /\
    console (snd (bench name callback w)) =
      console w1 ++
        [report name
           (if (now (clock w) <? 1)%Z then 0%Z
            else (now (clock w1) - now (clock w))%Z)].
Proof.
  intros A name callback w r w1 H.
  rewrite (bench_returns _ _ _ _ _ H). now simpl.
Qed.

(** *** More on the documents *)

Lemma nth_error_last {A} (l : list A) (x : A) :
  nth_error (l ++ [x]) (List.length l) = Some x.
Proof.
  rewrite nth_error_app2 by lia. now rewrite Nat.sub_diag.
Qed.

Lemma remove_nth_last {A} (l : list A) (x : A) :
  remove_nth (List.length l) (l ++ [x]) = l.
Proof.
  induction l as [|y l IH]; simpl; [reflexivity|]. now rewrite IH.
Qed.

Lemma newFile_world w :
  newFile w =
    (Normal tt,
     set_session
       (children w ++ [{| doc_id := nextId w; editor_content := new_content |}])
       (Some (List.length (children w)))
       (set_nextId (S (nextId w)) w)).
Proof. reflexivity. Qed.

Lemma newFile_current w :
  docPanel_currentWidget (snd (newFile w)) =
    Some (List.length (children w),
          {| doc_id := nextId w; editor_content := new_content |}).
Proof.
  rewrite newFile_world. unfold docPanel_currentWidget. simpl.
  now rewrite nth_error_last.
Qed.

(** X8.  [newFile] never throws: it adds a document as the last tab and
    selects it, whichever tab was selected before, and leaves the other
    tabs in place. *)
Theorem newFile_adds_and_selects_last :
  forall w,
    let doc := {| doc_id := nextId w; editor_content := new_content |} in
    fst (newFile w) = Normal tt /\
    children (snd (newFile w)) = children w ++ [doc] /\
    docPanel_currentWidget (snd (newFile w)) =
      Some (List.length (children w), doc) /\
    childCount (snd (newFile w)) = S (childCount w).
Proof.
  intros w doc. split; [reflexivity|]. split; [reflexivity|].
  split; [apply newFile_current|].
  rewrite newFile_world. unfold childCount. simpl.
  rewrite length_app. simpl. lia.
Qed.

(** X9.  An operation of the pipeline called right after [newFile]
    compiles the text of the new document, not that of the tab that was
    selected before. *)
Theorem build_after_newFile_compiles_new_document :
  forall t w,
    compilerCalls (snd (run t (snd (newFile w)))) =
      compilerCalls w ++ [(compiler_of t, new_content)].
Proof.
  intros t w.
  pose proof (newFile_current w) as Hcur.
  set (w1 := snd (newFile w)) in *.
  assert (Hcalls : compilerCalls w1 = compilerCalls w) by reflexivity.
  rewrite <- Hcalls. clearbody w1.
  destruct t; simpl run; simpl compiler_of.
  - rewrite play_unfold, Hcur, <- build_compilerCalls. simpl editor_content.
    now destruct (build None new_content w1) as [[b|e] w'].
  - rewrite exportASM_unfold, Hcur. simpl editor_content.
    now destruct (compile None new_content).
  - rewrite exportSID_unfold, Hcur, <- build_compilerCalls. simpl editor_content.
    now destruct (build None new_content w1) as [[b|e] w'].
  - rewrite exportPlayer_unfold, Hcur, <- build_compilerCalls.
    simpl editor_content.
    now destruct (build _ new_content w1) as [[b|e] w'].
Qed.

(** X10.  [newFile] followed by [closeDocument] closes the document just
    added and leaves the tabs that were open before, in their order. *)
Theorem newFile_then_closeDocument :
  forall w,
    let doc := {| doc_id := nextId w; editor_content := new_content |} in
    fst (closeDocument (snd (newFile w))) = Normal tt /\
    children (snd (closeDocument (snd (newFile w)))) = children w /\
    closed (snd (closeDocument (snd (newFile w)))) = closed w ++ [doc].
Proof.
  intros w doc.
  unfold closeDocument, currentDocument, gets, bind.
  rewrite newFile_current. unfold DocumentPanel_close, modify.
  rewrite newFile_world. simpl.
  now rewrite remove_nth_last.
Qed.

(** *** More on [closeAllDocuments] *)

Lemma current_nth w i d :
  docPanel_currentWidget w = Some (i, d) -> nth_error (children w) i = Some d.
Proof.
  unfold docPanel_currentWidget. intros H.
  destruct (currentWidget w) as [k|]; [|discriminate].
  destruct (nth_error (children w) k) eqn:E; [|discriminate].
  now injection H as -> ->.
Qed.

Lemma closeAllDocuments_empty fuel w :
  children w = [] -> closeAllDocuments (S fuel) w = Some (Normal tt, w).
Proof. intros H. simpl. unfold childCount. now rewrite H. Qed.

Lemma closeAllDocuments_normal_empty fuel :
  forall w w',
    closeAllDocuments fuel w = Some (Normal tt, w') -> children w' = [].
Proof.
  induction fuel as [|fuel IH]; intros w w' H; simpl in H; [discriminate|].
  unfold childCount in H.
  destruct (children w) as [|x l] eqn:Hc; simpl in H.
  - injection H as <-. exact Hc.
  - destruct (docPanel_currentWidget w) as [[i d]|]; [|discriminate].
    unfold DocumentPanel_close, modify in H. now apply IH in H.
Qed.

(** X11.  Whenever [closeAllDocuments] returns it leaves no document
    open, and on a session without documents it returns at once and
    changes nothing: calling it a second time is harmless. *)
Theorem closeAllDocuments_twice :
  forall fuel w w',
    closeAllDocuments fuel w = Some (Normal tt, w') ->
    children w' = [] /\
    forall fuel', closeAllDocuments (S fuel') w' = Some (Normal tt, w').
Proof.
  intros fuel w w' H.
  pose proof (closeAllDocuments_normal_empty _ _ _ H) as He.
  split; [exact He|]. intros fuel'. now apply closeAllDocuments_empty.
Qed.

Lemma closeAllDocuments_frame fuel :
  forall w r w',
    closeAllDocuments fuel w = Some (r, w') ->
    same_logs w w' /\
    sidePanel w' = sidePanel w /\
    exists trace,
      closed w' = closed w ++ trace /\
      List.length (children w') + List.length trace = List.length (children w).
Proof.
  induction fuel as [|fuel IH]; intros w r w' H; simpl in H; [discriminate|].
  unfold childCount in H.
  destruct (children w) as [|x l] eqn:Hc; simpl in H.
  - injection H as <- <-. repeat split. exists []. rewrite app_nil_r, Hc.
    now split.
  - destruct (docPanel_currentWidget w) as [[i d]|] eqn:Hd.
    + unfold DocumentPanel_close, modify in H.
      apply IH in H. simpl in H.
      destruct H as ((H1 & H2 & H3 & H4 & H5 & H6) & Hs & trace & Ht & Hl).
      repeat split; try assumption.
      exists (d :: trace). rewrite Ht, <- app_assoc. split; [reflexivity|].
      pose proof (remove_nth_length _ _ _ (current_nth _ _ _ Hd)) as Hlen.
      rewrite Hc in Hlen. simpl in *. lia.
    + injection H as <- <-. repeat split. exists []. rewrite app_nil_r, Hc.
      now split.
Qed.

(** X12.  However [closeAllDocuments] ends, by returning or by throwing,
    it has called nothing but [close]: the logs of the compiler, the
    assembler, the player and the file saver, the console and the side
    panel are as before, and the documents it closed and the documents
    still open add up to those that were open. *)
Theorem closeAllDocuments_only_closes :
  forall fuel w r w',
    closeAllDocuments fuel w = Some (r, w') ->
    same_logs w w' /\
    sidePanel w' = sidePanel w /\
    exists trace,
      closed w' = closed w ++ trace /\
      List.length (children w') + List.length trace = List.length (children w).
Proof. intros fuel w r w' H. exact (closeAllDocuments_frame _ _ _ _ H). Qed.

(** X13.  When the document panel selects no tab after a close, the loop
    of [closeAllDocuments] does not go on for ever: with two documents or
    more it closes the selected one and then throws the [TypeError] of
    [null.close()], leaving the others open. *)
Theorem closeAllDocuments_throws_when_nothing_is_selected :
  forall fuel w i d,
    (forall j rest, reassign j rest = None) ->
    docPanel_currentWidget w = Some (i, d) ->
    2 <= List.length (children w) ->
    closeAllDocuments (S (S fuel)) w =
      Some (Throw (TypeError_null "close"),
            set_session (remove_nth i (children w)) None (log_closed d w)).
Proof.
  intros fuel w i d Hr Hd Hlen.
  pose proof (remove_nth_length _ _ _ (current_nth _ _ _ Hd)) as Hrem.
  cbn [closeAllDocuments]. unfold childCount.
  destruct (children w) as [|x l] eqn:Hc; [simpl in Hlen; lia|].
  cbn [List.length Nat.ltb Nat.leb]. rewrite Hd.
  unfold DocumentPanel_close, modify. rewrite Hc, Hr.
  cbn [children set_session].
  destruct (remove_nth i (x :: l)) as [|y rest] eqn:E;
    [simpl in Hrem, Hlen; lia|].
  reflexivity.
Qed.

(** *** More on the view menu *)

Lemma view_handler_docks v item w :
  view_handler v item w = (Normal tt, dock_right (placeholder_of v) w).
Proof. now destruct v. Qed.

(** X14.  The view items picked in any order and number dock one
    placeholder each, rightmost last, and touch neither the documents nor
    the console: the side panel grows by as many widgets as items were
    picked. *)
Theorem pick_views_docks_one_each :
  forall vs item w,
    sidePanel (pick_views vs item w) = sidePanel w ++ map placeholder_of vs /\
    children (pick_views vs item w) = children w /\
    currentWidget (pick_views vs item w) = currentWidget w /\
    console (pick_views vs item w) = console w.
Proof.
  induction vs as [|v vs IH]; intros item w; simpl.
  - now rewrite app_nil_r.
  - rewrite view_handler_docks.
    destruct (IH item (dock_right (placeholder_of v) w)) as (H1 & H2 & H3 & H4).
    simpl in *. rewrite H1, <- app_assoc. now repeat split.
Qed.

(** *** The menu bar *)

Lemma menu_handlers :
  Forall
    (fun o =>
       (o_disabled o = true <-> o_handler o = Some HlogHandler) /\
       (o_handler o = None <->
        o_submenu o <> None \/ o_type o = Some ItemSeparator))
    (all_items createMenuBar).
Proof.
  unfold all_items, createMenuBar. simpl.
  repeat (apply Forall_cons;
          [ simpl; split; split; intros H;
            first [ discriminate H
                  | reflexivity
                  | now left
                  | now right
                  | destruct H as [H|H]; first [discriminate H | now elim H] ]
          | ]).
  apply Forall_nil.
Qed.

Lemma offered_not_logHandler o :
  offered o -> o_handler o <> Some HlogHandler.
Proof.
  intros [Hin Hd] Hh.
  pose proof (proj1 (Forall_forall _ _) menu_handlers o Hin) as [[_ H] _].
  rewrite (H Hh) in Hd. discriminate Hd.
Qed.

(** X15.  In the menu bar of the application an item is disabled exactly
    when its handler is [logHandler], and an item has no handler exactly
    when it opens a submenu or is a separator: every item a user can
    trigger calls an operation of the application. *)
Theorem menu_items_disabled_iff_logHandler :
  forall o,
    In o (all_items createMenuBar) ->
    (o_disabled o = true <-> o_handler o = Some HlogHandler) /\
    (o_handler o = None <->
     o_submenu o <> None \/ o_type o = Some ItemSeparator).
Proof.
  intros o Hin. exact (proj1 (Forall_forall _ _) menu_handlers o Hin).
Qed.

(** X16.  No two items of the menu bar, at any depth, declare the same
    keyboard shortcut. *)
Theorem menu_shortcuts_distinct : NoDup (shortcuts createMenuBar).
Proof.
  unfold shortcuts, all_items, createMenuBar. simpl.
  repeat (apply NoDup_cons;
          [ simpl; intros H;
            repeat (destruct H as [H|H]; [discriminate H|]); exact H
          | ]).
  apply NoDup_nil.
Qed.

(** *** What holds in every state the application reaches *)

Lemma same_logs_refl w : same_logs w w.
Proof. now repeat split. Qed.

Lemma closeDocument_same_logs w : same_logs w (snd (closeDocument w)).
Proof.
  unfold closeDocument, currentDocument, gets, bind.
  destruct (docPanel_currentWidget w) as [[i d]|]; now repeat split.
Qed.

(** What an event the menu offers comes down to: an operation of the
    pipeline, [stop], or a step that leaves the logs alone. *)
Lemma react_cases ev w r w' :
  allowed ev ->
  react ev w = Some (r, w') ->
  (exists t, run t w = (r, w')) \/ stop w = (r, w') \/ same_logs w w'.
Proof.
  intros Ha H. destruct ev as [o fuel| | |text|i]; simpl in *.
  - pose proof (offered_not_logHandler _ Ha) as Hlog.
    destruct (o_handler o) as [h|].
    + destruct h; simpl in H; try congruence.
      * injection H as <- <-. right; right. now repeat split.
      * injection H as H. left. now exists ExportSoundFile.
      * injection H as H. left. now exists ExportAssembly.
      * injection H as H. left. now exists ExportPlayerProgram.
      * injection H as H. right; right.
        replace w' with (snd (closeDocument w)) by now rewrite H.
        apply closeDocument_same_logs.
      * right; right. exact (proj1 (closeAllDocuments_frame _ _ _ _ H)).
      * injection H as <- <-. right; right. now repeat split.
      * injection H as <- <-. right; right. now repeat split.
      * injection H as <- <-. right; right. now repeat split.
    + injection H as <- <-. right; right. apply same_logs_refl.
  - injection H as H. left. now exists Play.
  - injection H as <- <-. right; now left.
  - injection H as <- <-. right; right. unfold type_text.
    destruct (currentWidget w); now repeat split.
  - injection H as <- <-. right; right. unfold select_tab.
    destruct (i <? List.length (children w))%nat; now repeat split.
Qed.

Lemma report_is_stage_report_compile t : stage_report (report "compile" t).
Proof. exists t. now left. Qed.

Lemma report_is_stage_report_assemble t : stage_report (report "assemble" t).
Proof. exists t. now right. Qed.

Lemma run_keeps_console t w :
  Forall stage_report (console w) ->
  Forall stage_report (console (snd (run t w))).
Proof.
  intros H. run_cases t w; rewrite ?Forall_app; repeat split;
    try assumption;
    repeat constructor;
    auto using report_is_stage_report_compile, report_is_stage_report_assemble.
Qed.

(** X17.  In every state the application reaches, each line on the console
    is the report of a compile or an assemble stage: nothing a user can
    trigger prints anything else, the handler [logHandler] being wired to
    disabled items only. *)
Theorem console_holds_stage_reports_only :
  forall w, reachable w -> Forall stage_report (console w).
Proof.
  intros w Hr. induction Hr as [|ev w r w' Hr IH Ha Hstep].
  - constructor.
  - destruct (react_cases _ _ _ _ Ha Hstep) as [[t Ht]|[Hs|Hs]].
    + replace w' with (snd (run t w)) by now rewrite Ht.
      now apply run_keeps_console.
    + injection Hs as _ <-. exact IH.
    + destruct Hs as (_ & _ & _ & _ & -> & _). exact IH.
Qed.

Lemma compiled_more calls more asm :
  compiled calls asm -> compiled (calls ++ more) asm.
Proof.
  intros (cfg & source & Hin & Hc). exists cfg, source.
  split; [apply in_or_app; now left|exact Hc].
Qed.

Lemma compiled_last calls cfg source asm :
  compile cfg source = Normal asm -> compiled (calls ++ [(cfg, source)]) asm.
Proof.
  intros Hc. exists cfg, source. split; [|exact Hc].
  apply in_or_app. right. now left.
Qed.

Lemma run_keeps_provenance t w :
  Forall (compiled (compilerCalls w)) (assemblerCalls w) ->
  Forall (compiled (compilerCalls (snd (run t w))))
         (assemblerCalls (snd (run t w))).
Proof.
  intros H.
  assert (Hmore : forall more,
             Forall (compiled (compilerCalls w ++ more)) (assemblerCalls w)).
  { intros more. eapply Forall_impl; [|exact H].
    intros a. apply compiled_more. }
  run_cases t w; rewrite ?Forall_app; repeat split;
    try apply Hmore; try assumption;
    repeat constructor; now apply compiled_last.
Qed.

(** X18.  In every state the application reaches, each text the assembler
    was called on is a text the compiler returned on one of its calls: the
    assembler is never given anything else. *)
Theorem assembler_only_gets_compiled_text :
  forall w, reachable w -> Forall (compiled (compilerCalls w)) (assemblerCalls w).
Proof.
  intros w Hr. induction Hr as [|ev w r w' Hr IH Ha Hstep].
  - constructor.
  - destruct (react_cases _ _ _ _ Ha Hstep) as [[t Ht]|[Hs|Hs]].
    + replace w' with (snd (run t w)) by now rewrite Ht.
      now apply run_keeps_provenance.
    + injection Hs as _ <-. exact IH.
    + destruct Hs as (-> & -> & _). exact IH.
Qed.

Lemma Uint8Array_from_bytes xs : Forall is_byte (Uint8Array_from xs).
Proof.
  unfold Uint8Array_from. apply Forall_forall. intros x Hin.
  apply in_map_iff in Hin. destruct Hin as (y & <- & _).
  unfold is_byte. apply Z.mod_pos_bound. lia.
Qed.

Lemma known_asm asm :
  known_artifact
    ({| blob_part := Text asm; blob_type := "text/plain;charset=utf-8" |},
     "Untitled.asm").
Proof. now split. Qed.

Lemma known_sid xs :
  known_artifact
    ({| blob_part := Bytes (Uint8Array_from xs);
        blob_type := "application/octet-binary" |}, "Untitled.sid").
Proof.
  split; [now left|]. split; [reflexivity|apply Uint8Array_from_bytes].
Qed.

Lemma known_prg xs :
  known_artifact
    ({| blob_part := Bytes (Uint8Array_from xs);
        blob_type := "application/octet-binary" |}, "Untitled.prg").
Proof.
  split; [now right|]. split; [reflexivity|apply Uint8Array_from_bytes].
Qed.

Lemma byte_call_load xs : byte_call (Loadinitdata (Uint8Array_from xs) 0).
Proof. split; [apply Uint8Array_from_bytes|reflexivity]. Qed.

Lemma run_keeps_artifacts t w :
  Forall known_artifact (saved w) /\ Forall byte_call (playerCalls w) ->
  Forall known_artifact (saved (snd (run t w))) /\
  Forall byte_call (playerCalls (snd (run t w))).
Proof.
  intros [Hs Hp].
  run_cases t w; rewrite ?Forall_app; repeat split;
    repeat first [ assumption
                 | apply Forall_nil
                 | apply Forall_cons
                 | apply known_asm
                 | apply known_sid
                 | apply known_prg
                 | apply byte_call_load
                 | exact I ].
Qed.

(** X19.  In every state the application reaches, each file saved is an
    [Untitled.asm] of text, or an [Untitled.sid] or [Untitled.prg] of
    bytes, with the matching type, and each load of the player passes
    bytes, for subtune 0: no number outside 0..255 leaves the controller,
    whatever the assembler returns. *)
Theorem artifacts_are_well_formed :
  forall w,
    reachable w ->
    Forall known_artifact (saved w) /\ Forall byte_call (playerCalls w).
Proof.
  intros w Hr. induction Hr as [|ev w r w' Hr IH Ha Hstep].
  - split; constructor.
  - destruct (react_cases _ _ _ _ Ha Hstep) as [[t Ht]|[Hs|Hs]].
    + replace w' with (snd (run t w)) by now rewrite Ht.
      now apply run_keeps_artifacts.
    + injection Hs as _ <-. destruct IH as [IH1 IH2]. split; [exact IH1|].
      simpl. rewrite Forall_app. split; [exact IH2|]. now repeat constructor.
    + destruct Hs as (_ & _ & -> & -> & _). exact IH.
Qed.

Lemma active_is_member_session w w' :
  children w' = children w ->
  currentWidget w' = currentWidget w ->
  active_is_member w' = active_is_member w.
Proof.
  intros Hc Hw. unfold active_is_member, docPanel_currentWidget.
  now rewrite Hc, Hw.
Qed.

Lemma closeAllDocuments_keeps_invariant fuel :
  reassign_selects_member ->
  forall w r w',
    active_is_member w = true ->
    closeAllDocuments fuel w = Some (r, w') ->
    active_is_member w' = true.
Proof.
  intros Hsel. induction fuel as [|fuel IH]; intros w r w' Hinv H;
    simpl in H; [discriminate|].
  destruct (0 <? childCount w)%nat.
  - destruct (docPanel_currentWidget w) as [[i d]|] eqn:Hd.
    + unfold DocumentPanel_close, modify in H.
      eapply IH; [|exact H].
      exact (close_keeps_invariant w i d Hsel).
    + injection H as _ <-. exact Hinv.
  - injection H as _ <-. exact Hinv.
Qed.

Lemma with_content_length i text l :
  List.length (with_content i text l) = List.length l.
Proof.
  revert i. induction l as [|d l IH]; intros [|i]; simpl; auto.
Qed.

Lemma selected_in_range cs i w :
  (i < List.length cs)%nat ->
  active_is_member (set_session cs (Some i) w) = true.
Proof.
  intros Hlt. unfold active_is_member, docPanel_currentWidget. simpl.
  destruct (nth_error_member cs i Hlt) as (d & ->).
  now destruct cs.
Qed.

Lemma type_text_keeps_invariant text w :
  active_is_member w = true -> active_is_member (type_text text w) = true.
Proof.
  intros Hinv. unfold type_text.
  destruct (currentWidget w) as [i|] eqn:Hw; [|exact Hinv].
  destruct (Nat.lt_ge_cases i (List.length (children w))) as [Hlt|Hge].
  - apply selected_in_range. now rewrite with_content_length.
  - unfold active_is_member, docPanel_currentWidget in *. simpl.
    rewrite Hw in Hinv.
    apply nth_error_None in Hge. rewrite Hge in Hinv.
    destruct (children w) as [|x l]; [now destruct i|discriminate].
Qed.

Lemma select_tab_keeps_invariant i w :
  active_is_member w = true -> active_is_member (select_tab i w) = true.
Proof.
  intros Hinv. unfold select_tab.
  destruct (Nat.ltb_spec i (List.length (children w))) as [Hlt|Hge];
    [|exact Hinv].
  now apply selected_in_range.
Qed.

Lemma reached_state {A} (x : Completion A * World) r w' :
  Some x = Some (r, w') -> w' = snd x.
Proof. intros H. injection H as ->. reflexivity. Qed.

(** X20.  As long as the document panel selects a tab whenever tabs
    remain after a close, in every state the application reaches either no
    document is open or the selected tab is one of the open documents. *)
Theorem selected_tab_is_open_in_reachable_states :
  forall w,
    reassign_selects_member ->
    reachable w ->
    active_is_member w = true.
Proof.
  intros w Hsel Hr. induction Hr as [|ev w r w' Hr IH Ha Hstep].
  - reflexivity.
  - destruct ev as [o fuel| | |text|i]; simpl in Hstep.
    + destruct (o_handler o) as [h|]; [|now injection Hstep as _ <-].
      destruct h; simpl in Hstep;
        try (apply reached_state in Hstep; subst w').
      * exact IH.
      * apply newFile_keeps_invariant.
      * rewrite <- IH. apply active_is_member_session;
          apply (pipeline_session ExportSoundFile).
      * rewrite <- IH. apply active_is_member_session;
          apply (pipeline_session ExportAssembly).
      * rewrite <- IH. apply active_is_member_session;
          apply (pipeline_session ExportPlayerProgram).
      * now apply closeDocument_keeps_invariant.
      * exact (closeAllDocuments_keeps_invariant _ Hsel _ _ _ IH Hstep).
      * exact IH.
      * exact IH.
      * exact IH.
    + apply reached_state in Hstep; subst w'. rewrite <- IH.
      apply active_is_member_session; apply (pipeline_session Play).
    + apply reached_state in Hstep; subst w'. exact IH.
    + apply reached_state in Hstep; subst w'.
      now apply type_text_keeps_invariant.
    + apply reached_state in Hstep; subst w'.
      now apply select_tab_keeps_invariant.
Qed.

Lemma react_all_reachable evs :
  forall w w',
    reachable w ->
    Forall allowed evs ->
    react_all evs w = Some w' ->
    reachable w'.
Proof.
  induction evs as [|ev evs IH]; intros w w' Hr Ha H; simpl in H.
  - now injection H as <-.
  - inversion Ha as [|? ? Hev Hrest]; subst.
    destruct (react ev w) as [[r w1]|] eqn:E; [|discriminate].
    eapply IH; [|exact Hrest|exact H].
    now apply (reachable_react ev w r w1).
Qed.

Lemma sample_events_allowed : Forall allowed sample_events.
Proof.
  unfold sample_events.
  repeat (apply Forall_cons || apply Forall_nil); simpl; try exact I;
    (split; [|reflexivity]);
    unfold all_items, createMenuBar; simpl;
    repeat first [left; reflexivity | right].
Qed.

End Controller.

(** ** The controller at work on the sample collaborators *)

Module Runs.

Import Sample.

(** A run of [play] on the score, and the state it leaves. *)
Example play_score :
  play compile assemble now (editing score) =
    (Normal tt,
     {| children := [doc 0 score]; currentWidget := Some 0; sidePanel := [];
        nextId := 1; closed := [];
        compilerCalls := [(None, score)];
        assemblerCalls := [score];
        playerCalls := [Loadinitdata [76; 3; 255; 8]%Z 0; Playcont];
        saved := [];
        console := ["[bench] compile took 7ms"; "[bench] assemble took 7ms"];
        clock := 4 |}).
Proof. reflexivity. Qed.

Example new_then_close :
  children (snd (closeDocument reassign (snd (newFile "" fresh)))) = [] /\
  children (snd (newFile "" (snd (newFile "" fresh)))) = [doc 0 ""; doc 1 ""] /\
  currentWidget (snd (newFile "" (snd (newFile "" fresh)))) = Some 1.
Proof. repeat split. Qed.

(** The Piano Roll item of the view menu, activated twice. *)
Example piano_roll_twice :
  sidePanel (snd (viewPianoRoll item (snd (viewPianoRoll item fresh)))) =
    [createPlaceholder "Piano Roll" "green";
     createPlaceholder "Piano Roll" "green"].
Proof. reflexivity. Qed.

Lemma reassign_selects : reassign_selects_member reassign.
Proof.
  intros i [|x rest] H; [congruence|].
  exists (Nat.min i (List.length (x :: rest) - 1)). split; [reflexivity|].
  simpl. lia.
Qed.

End Runs.

Lemma compile_failure_aborts_pipeline_witness :
  let w := Sample.editing "" in
  docPanel_currentWidget w = Some (0, Sample.doc 0 "") /\
  Sample.compile (compiler_of ExportPlayerProgram) "" = Throw Sample.syntax_error /\
  fst (run Sample.compile Sample.assemble Sample.now ExportPlayerProgram w) =
    Throw Sample.syntax_error /\
  assemblerCalls (snd (run Sample.compile Sample.assemble Sample.now ExportPlayerProgram w)) = [] /\
  playerCalls (snd (run Sample.compile Sample.assemble Sample.now ExportPlayerProgram w)) = [] /\
  saved (snd (run Sample.compile Sample.assemble Sample.now ExportPlayerProgram w)) = [].
Proof.
  split; [reflexivity|]. split; [reflexivity|].
  exact (compile_failure_aborts_pipeline Sample.compile Sample.assemble Sample.now
           ExportPlayerProgram (Sample.editing "") 0 (Sample.doc 0 "")
           Sample.syntax_error eq_refl eq_refl).
Defined.

Lemma player_flag_iff_export_player_witness :
  let w := Sample.editing Sample.score in
  docPanel_currentWidget w = Some (0, Sample.doc 0 Sample.score) /\
  compilerCalls (snd (run Sample.compile Sample.assemble Sample.now ExportPlayerProgram w)) =
    [(Some {| player := true |}, Sample.score)] /\
  (player_flag (compiler_of ExportPlayerProgram) = true <->
   ExportPlayerProgram = ExportPlayerProgram).
Proof.
  split; [reflexivity|].
  exact (player_flag_iff_export_player Sample.compile Sample.assemble Sample.now
           ExportPlayerProgram (Sample.editing Sample.score) 0
           (Sample.doc 0 Sample.score) eq_refl).
Defined.

Lemma play_and_exportSID_same_bytes_witness :
  let w1 := Sample.editing Sample.score in
  let w2 := Sample.session [Sample.doc 0 "r1"; Sample.doc 1 Sample.score] 1 in
  docPanel_currentWidget w1 = Some (0, Sample.doc 0 Sample.score) /\
  docPanel_currentWidget w2 = Some (1, Sample.doc 1 Sample.score) /\
  playerCalls (snd (play Sample.compile Sample.assemble Sample.now w1)) =
    [Loadinitdata [76; 3; 255; 8]%Z 0; Playcont] /\
  saved (snd (exportSID Sample.compile Sample.assemble Sample.now w2)) =
    [({| blob_part := Bytes [76; 3; 255; 8]%Z;
         blob_type := "application/octet-binary" |}, "Untitled.sid")].
Proof.
  split; [reflexivity|]. split; [reflexivity|].
  exact (play_and_exportSID_same_bytes Sample.compile Sample.assemble Sample.now
           (Sample.editing Sample.score)
           (Sample.session [Sample.doc 0 "r1"; Sample.doc 1 Sample.score] 1)
           0 (Sample.doc 0 Sample.score) 1 (Sample.doc 1 Sample.score)
           eq_refl eq_refl eq_refl).
Defined.

(** C4, as the specification words it, fails: the error thrown when no
    document is open is named [TypeError], not [NoActiveDocument]. *)
Lemma no_document_error_is_not_NoActiveDocument :
  children fresh = [] /\
  ~ throws_named "NoActiveDocument" (closeDocument Sample.reassign fresh) /\
  ~ throws_named "NoActiveDocument"
      (play Sample.compile Sample.assemble Sample.now fresh) /\
  throws_named "TypeError" (closeDocument Sample.reassign fresh).
Proof.
  split; [reflexivity|].
  split; [intros H; discriminate H|].
  split; [intros H; discriminate H|].
  reflexivity.
Qed.

Lemma no_document_throws_TypeError_witness :
  children fresh = [] /\
  closeDocument Sample.reassign fresh = (Throw (TypeError_null "close"), fresh) /\
  currentDocument_editor_content fresh = (Throw (TypeError_null "editor"), fresh) /\
  (forall t, run Sample.compile Sample.assemble Sample.now t fresh =
             (Throw (TypeError_null "editor"), fresh)).
Proof.
  split; [reflexivity|].
  exact (no_document_throws_TypeError Sample.compile Sample.assemble Sample.now
           Sample.reassign fresh eq_refl).
Defined.

(** C5, as the specification words it, fails: a second [play], started
    while the first playback is on, succeeds without a [stop] among the
    calls it makes on the player. *)
Lemma second_play_calls_no_stop :
  let play := play Sample.compile Sample.assemble Sample.now in
  let w1 := snd (play (Sample.editing Sample.score)) in
  playback_active (playerCalls w1) = true /\
  fst (play w1) = Normal tt /\
  player_calls_since w1 (snd (play w1)) =
    [Loadinitdata [76; 3; 255; 8]%Z 0; Playcont] /\
  ~ In Stop (player_calls_since w1 (snd (play w1))).
Proof.
  repeat split.
  intros [H|[H|[]]]; discriminate H.
Qed.

Lemma play_loads_and_starts_without_stop_witness :
  let w1 := snd (play Sample.compile Sample.assemble Sample.now (Sample.editing Sample.score)) in
  docPanel_currentWidget w1 = Some (0, Sample.doc 0 Sample.score) /\
  Sample.compile None Sample.score = Normal Sample.score /\
  Sample.assemble Sample.score = Normal {| objectCode := [76; 259; -1; 8]%Z |} /\
  playerCalls (snd (play Sample.compile Sample.assemble Sample.now w1)) =
    [Loadinitdata [76; 3; 255; 8]%Z 0; Playcont;
     Loadinitdata [76; 3; 255; 8]%Z 0; Playcont] /\
  playerCalls (snd (stop w1)) =
    [Loadinitdata [76; 3; 255; 8]%Z 0; Playcont; Stop].
Proof.
  split; [reflexivity|]. split; [reflexivity|]. split; [reflexivity|].
  exact (play_loads_and_starts_without_stop Sample.compile Sample.assemble Sample.now
           (snd (play Sample.compile Sample.assemble Sample.now (Sample.editing Sample.score)))
           0 (Sample.doc 0 Sample.score) Sample.score
           {| objectCode := [76; 259; -1; 8]%Z |} eq_refl eq_refl eq_refl).
Defined.

(** C8, as the specification words it, fails: when the compiler throws
    inside [bench], nothing is printed. *)
Lemma bench_reports_nothing_on_throw :
  ~ reports_before_rethrow Sample.now "compile"
      (Compiler_compile Sample.compile None "") fresh.
Proof.
  intros H.
  destruct (H Sample.syntax_error
              (log_compile None "" (tick fresh)) eq_refl) as (_ & t & Ht).
  discriminate Ht.
Qed.

Lemma bench_rethrows_unchanged_witness :
  let w1 := log_compile None "" (tick fresh) in
  Compiler_compile Sample.compile None "" (tick fresh) = (Throw Sample.syntax_error, w1) /\
  fst (bench Sample.now "compile" (Compiler_compile Sample.compile None "") fresh) =
    Throw Sample.syntax_error /\
  snd (bench Sample.now "compile" (Compiler_compile Sample.compile None "") fresh) = w1 /\
  console (snd (bench Sample.now "compile" (Compiler_compile Sample.compile None "") fresh)) = [] /\
  clock (snd (bench Sample.now "compile" (Compiler_compile Sample.compile None "") fresh)) = 1.
Proof.
  split; [reflexivity|].
  exact (bench_rethrows_unchanged Sample.now string "compile"
           (Compiler_compile Sample.compile None "") fresh Sample.syntax_error
           (log_compile None "" (tick fresh)) eq_refl).
Defined.

Lemma nested_bench_keeps_own_timer_witness :
  let before := console_log "building" in
  let callback := Compiler_compile Sample.compile None Sample.score in
  let after := fun (_ : unit) (asm : string) => Assembler_assemble Sample.assemble asm in
  let wb := log_console "building" (tick fresh) in
  let wa := log_compile None Sample.score (tick wb) in
  let wi := log_console "[bench] inner took 7ms" (tick wa) in
  let wc := log_assemble Sample.score wi in
  before (tick fresh) = (Normal tt, wb) /\
  callback (tick wb) = (Normal Sample.score, wa) /\
  after tt Sample.score wi =
    (Normal {| objectCode := [76; 259; -1; 8]%Z |}, wc) /\
  bench Sample.now "inner" callback wb = (Normal Sample.score, wi) /\
  bench Sample.now "outer"
    (bind before (fun b => bind (bench Sample.now "inner" callback) (after b)))
    fresh =
    (Normal {| objectCode := [76; 259; -1; 8]%Z |},
     log_console "[bench] outer took 21ms" (tick wc)).
Proof.
  split; [reflexivity|]. split; [reflexivity|]. split; [reflexivity|].
  exact (nested_bench_keeps_own_timer Sample.now string unit AssemblerOutput
           "outer" "inner" (console_log "building")
           (Compiler_compile Sample.compile None Sample.score)
           (fun _ asm => Assembler_assemble Sample.assemble asm)
           fresh tt (log_console "building" (tick fresh))
           Sample.score
           (log_compile None Sample.score (tick (log_console "building" (tick fresh))))
           {| objectCode := [76; 259; -1; 8]%Z |}
           (log_assemble Sample.score
              (log_console "[bench] inner took 7ms"
                 (tick (log_compile None Sample.score
                          (tick (log_console "building" (tick fresh)))))))
           eq_refl eq_refl eq_refl).
Defined.

Lemma closeAllDocuments_closes_each_document_once_witness :
  reassign_selects_member Sample.reassign /\
  active_is_member Sample.three_open = true /\
  List.length (children Sample.three_open) < 4 /\
  exists w' trace,
    closeAllDocuments Sample.reassign 4 Sample.three_open = Some (Normal tt, w') /\
    children w' = [] /\
    closed w' = closed Sample.three_open ++ trace /\
    List.length trace = 3 /\
    Permutation trace (children Sample.three_open).
Proof.
  split; [exact Runs.reassign_selects|].
  split; [reflexivity|].
  split; [simpl; lia|].
  exact (closeAllDocuments_closes_each_document_once Sample.reassign
           Sample.three_open 4 Runs.reassign_selects eq_refl
           (le_n 4)).
Defined.

(** ** More runs on the sample and on the misbehaving collaborators *)

Lemma assemble_failure_aborts_after_compile_witness :
  let w := Sample.editing Sample.score in
  Play <> ExportAssembly /\
  docPanel_currentWidget w = Some (0, Sample.doc 0 Sample.score) /\
  Sample.compile (compiler_of Play) Sample.score = Normal Sample.score /\
  Faulty.assemble Sample.score = Throw Faulty.assembly_error /\
  fst (run Sample.compile Faulty.assemble Sample.now Play w) =
    Throw Faulty.assembly_error /\
  playerCalls (snd (run Sample.compile Faulty.assemble Sample.now Play w)) = [] /\
  saved (snd (run Sample.compile Faulty.assemble Sample.now Play w)) = [] /\
  console (snd (run Sample.compile Faulty.assemble Sample.now Play w)) =
    ["[bench] compile took 7ms"].
Proof.
  split; [discriminate|].
  split; [reflexivity|]. split; [reflexivity|]. split; [reflexivity|].
  exact (assemble_failure_aborts_after_compile
           Sample.compile Faulty.assemble Sample.now Play
           (Sample.editing Sample.score) 0 (Sample.doc 0 Sample.score)
           Sample.score Faulty.assembly_error
           (fun H : Play = ExportAssembly =>
              eq_ind Play
                (fun t => match t with Play => True | _ => False end)
                I ExportAssembly H)
           eq_refl eq_refl eq_refl).
Defined.

Lemma assembler_gets_compiler_output_witness :
  let w := Sample.editing Sample.score in
  ExportPlayerProgram <> ExportAssembly /\
  docPanel_currentWidget w = Some (0, Sample.doc 0 Sample.score) /\
  Sample.compile (compiler_of ExportPlayerProgram) Sample.score =
    Normal "; playerc4 e4 g4" /\
  assemblerCalls
    (snd (run Sample.compile Faulty.assemble Sample.now ExportPlayerProgram w)) =
    ["; playerc4 e4 g4"].
Proof.
  split; [discriminate|]. split; [reflexivity|]. split; [reflexivity|].
  exact (assembler_gets_compiler_output
           Sample.compile Faulty.assemble Sample.now ExportPlayerProgram
           (Sample.editing Sample.score) 0 (Sample.doc 0 Sample.score)
           "; playerc4 e4 g4"
           (fun H : ExportPlayerProgram = ExportAssembly =>
              eq_ind ExportPlayerProgram
                (fun t => match t with ExportPlayerProgram => True | _ => False end)
                I ExportAssembly H)
           eq_refl eq_refl).
Defined.

Lemma exportPlayer_saves_program_witness :
  let w := Sample.editing Sample.score in
  docPanel_currentWidget w = Some (0, Sample.doc 0 Sample.score) /\
  Sample.compile (Some {| player := true |}) Sample.score =
    Normal "; playerc4 e4 g4" /\
  Sample.assemble "; playerc4 e4 g4" =
    Normal {| objectCode := [76; 259; -1; 16]%Z |} /\
  fst (exportPlayer Sample.compile Sample.assemble Sample.now w) = Normal tt /\
  saved (snd (exportPlayer Sample.compile Sample.assemble Sample.now w)) =
    [({| blob_part := Bytes [76; 3; 255; 16]%Z;
         blob_type := "application/octet-binary" |}, "Untitled.prg")].
Proof.
  split; [reflexivity|]. split; [reflexivity|]. split; [reflexivity|].
  exact (exportPlayer_saves_program Sample.compile Sample.assemble Sample.now
           (Sample.editing Sample.score) 0 (Sample.doc 0 Sample.score)
           "; playerc4 e4 g4" {| objectCode := [76; 259; -1; 16]%Z |}
           eq_refl eq_refl eq_refl).
Defined.

Lemma stages_are_timed_one_by_one_witness :
  let w := Sample.editing Sample.score in
  ExportSoundFile <> ExportAssembly /\
  docPanel_currentWidget w = Some (0, Sample.doc 0 Sample.score) /\
  Sample.compile (compiler_of ExportSoundFile) Sample.score = Normal Sample.score /\
  Sample.assemble Sample.score = Normal {| objectCode := [76; 259; -1; 8]%Z |} /\
  fst (run Sample.compile Sample.assemble Faulty.now ExportSoundFile w) = Normal tt /\
  clock (snd (run Sample.compile Sample.assemble Faulty.now ExportSoundFile w)) = 4 /\
  console (snd (run Sample.compile Sample.assemble Faulty.now ExportSoundFile w)) =
    ["[bench] compile took 0ms"; "[bench] assemble took 5000ms"].
Proof.
  split; [discriminate|].
  split; [reflexivity|]. split; [reflexivity|]. split; [reflexivity|].
  exact (stages_are_timed_one_by_one
           Sample.compile Sample.assemble Faulty.now ExportSoundFile
           (Sample.editing Sample.score) 0 (Sample.doc 0 Sample.score)
           Sample.score {| objectCode := [76; 259; -1; 8]%Z |}
           (fun H : ExportSoundFile = ExportAssembly =>
              eq_ind ExportSoundFile
                (fun t => match t with ExportSoundFile => True | _ => False end)
                I ExportAssembly H)
           eq_refl eq_refl eq_refl).
Defined.

Lemma bench_returns_result_and_reports_witness :
  let callback := Compiler_compile Sample.compile None Sample.score in
  let w1 := log_compile None Sample.score (tick fresh) in
  callback (tick fresh) = (Normal Sample.score, w1) /\
  fst (bench Faulty.now "compile" callback fresh) = Normal Sample.score /\
  clock (snd (bench Faulty.now "compile" callback fresh)) = 2 /\
  console (snd (bench Faulty.now "compile" callback fresh)) =
    ["[bench] compile took 0ms"].
Proof.
  split; [reflexivity|].
  exact (bench_returns_result_and_reports Faulty.now string "compile"
           (Compiler_compile Sample.compile None Sample.score) fresh
           Sample.score (log_compile None Sample.score (tick fresh)) eq_refl).
Defined.

Lemma closeAllDocuments_twice_witness :
  let w' := set_session [] None
              (log_closed (Sample.doc 0 "a")
                 (log_closed (Sample.doc 2 "c")
                    (log_closed (Sample.doc 1 "b") Sample.three_open))) in
  closeAllDocuments Sample.reassign 4 Sample.three_open = Some (Normal tt, w') /\
  children w' = [] /\
  (forall fuel', closeAllDocuments Sample.reassign (S fuel') w' = Some (Normal tt, w')).
Proof.
  split; [reflexivity|].
  exact (closeAllDocuments_twice Sample.reassign 4 Sample.three_open _ eq_refl).
Defined.

Lemma closeAllDocuments_only_closes_witness :
  let w' := set_session [Sample.doc 0 "a"; Sample.doc 2 "c"] None
              (log_closed (Sample.doc 1 "b") Sample.three_open) in
  closeAllDocuments Faulty.reassign 2 Sample.three_open =
    Some (Throw (TypeError_null "close"), w') /\
  same_logs Sample.three_open w' /\
  sidePanel w' = [] /\
  exists trace,
    closed w' = trace /\
    List.length (children w') + List.length trace = 3.
Proof.
  split; [reflexivity|].
  exact (closeAllDocuments_only_closes Faulty.reassign 2 Sample.three_open
           (Throw (TypeError_null "close")) _ eq_refl).
Defined.

Lemma closeAllDocuments_throws_when_nothing_is_selected_witness :
  (forall j rest, Faulty.reassign j rest = None) /\
  docPanel_currentWidget Sample.three_open = Some (1, Sample.doc 1 "b") /\
  2 <= List.length (children Sample.three_open) /\
  closeAllDocuments Faulty.reassign 2 Sample.three_open =
    Some (Throw (TypeError_null "close"),
          set_session [Sample.doc 0 "a"; Sample.doc 2 "c"] None
            (log_closed (Sample.doc 1 "b") Sample.three_open)).
Proof.
  split; [reflexivity|]. split; [reflexivity|]. split; [simpl; lia|].
  exact (closeAllDocuments_throws_when_nothing_is_selected
           Faulty.reassign 0 Sample.three_open 1 (Sample.doc 1 "b")
           (fun _ _ => eq_refl) eq_refl (le_S 2 2 (le_n 2))).
Defined.

Lemma menu_items_disabled_iff_logHandler_witness :
  let o := disabled_with_icon "Cu&t" "fa fa-cut" "Ctrl+X" HlogHandler in
  In o (all_items createMenuBar) /\
  (o_disabled o = true <-> o_handler o = Some HlogHandler) /\
  (o_handler o = None <->
   o_submenu o <> None \/ o_type o = Some ItemSeparator).
Proof.
  assert (Hin : In (disabled_with_icon "Cu&t" "fa fa-cut" "Ctrl+X" HlogHandler)
                   (all_items createMenuBar)).
  { unfold all_items, createMenuBar. simpl.
    repeat first [left; reflexivity | right]. }
  split; [exact Hin|].
  exact (menu_items_disabled_iff_logHandler _ Hin).
Defined.

Lemma sample_session_ends :
  react_all Sample.compile Sample.assemble Sample.now ""
    Sample.reassign sample_events fresh = Some after_sample_session.
Proof. vm_compute. reflexivity. Qed.

Lemma sample_session_reachable :
  reachable Sample.compile Sample.assemble Sample.now ""
    Sample.reassign after_sample_session.
Proof.
  eapply react_all_reachable;
    [apply reachable_fresh | apply sample_events_allowed
    | exact sample_session_ends].
Qed.

Lemma console_holds_stage_reports_only_witness :
  reachable Sample.compile Sample.assemble Sample.now ""
    Sample.reassign after_sample_session /\
  Forall stage_report (console after_sample_session).
Proof.
  split; [exact sample_session_reachable|].
  exact (console_holds_stage_reports_only Sample.compile Sample.assemble
           Sample.now "" Sample.reassign after_sample_session
           sample_session_reachable).
Defined.

Lemma assembler_only_gets_compiled_text_witness :
  reachable Sample.compile Sample.assemble Sample.now ""
    Sample.reassign after_sample_session /\
  Forall (compiled Sample.compile (compilerCalls after_sample_session))
         (assemblerCalls after_sample_session).
Proof.
  split; [exact sample_session_reachable|].
  exact (assembler_only_gets_compiled_text Sample.compile Sample.assemble
           Sample.now "" Sample.reassign after_sample_session
           sample_session_reachable).
Defined.

Lemma artifacts_are_well_formed_witness :
  reachable Sample.compile Sample.assemble Sample.now ""
    Sample.reassign after_sample_session /\
  Forall known_artifact (saved after_sample_session) /\
  Forall byte_call (playerCalls after_sample_session).
Proof.
  split; [exact sample_session_reachable|].
  exact (artifacts_are_well_formed Sample.compile Sample.assemble
           Sample.now "" Sample.reassign after_sample_session
           sample_session_reachable).
Defined.

Lemma selected_tab_is_open_in_reachable_states_witness :
  reassign_selects_member Sample.reassign /\
  reachable Sample.compile Sample.assemble Sample.now ""
    Sample.reassign after_sample_session /\
  active_is_member after_sample_session = true.
Proof.
  split; [exact Runs.reassign_selects|].
  split; [exact sample_session_reachable|].
  exact (selected_tab_is_open_in_reachable_states Sample.compile Sample.assemble
           Sample.now "" Sample.reassign after_sample_session
           Runs.reassign_selects sample_session_reachable).
Defined.
